(** * A model of [api_send_email_notification.py]

    The module queries [public.karmafy_job] for the postings of
    high-volume posters, renders them as an HTML report and an Excel file,
    and mails the report through Microsoft Graph after fetching an Azure AD
    token.  The code is modelled as a state and error monad over a [world]
    that holds the trace of observable effects (prints, database calls,
    HTTP requests, file writes), the local file system, the database server,
    the responses of the two HTTP endpoints and the clock. *)

From Stdlib Require Import String Ascii List ZArith NArith Bool Lia.
From Stdlib Require Import Sorting.Permutation.
Import ListNotations.
Open Scope string_scope.
Set Warnings "-register-all".

(* ------------------------------------------------------------------ *)
(** ** Python values and strings *)

(** A column value or dict value as the code sees it: [None] or a [str]
    (every column the query selects is text). *)
Inductive pyval :=
| PNone
| PStr (s : string).

(** A Python dict with string keys, in insertion order. *)
Definition dict := list (string * pyval).

Fixpoint dict_lookup (d : dict) (k : string) : option pyval :=
  match d with
  | [] => None
  | (k', v) :: d' => if String.eqb k' k then Some v else dict_lookup d' k
  end.

(** [d.get(k, default)] *)
Definition dict_get (d : dict) (k : string) (default : pyval) : pyval :=
  match dict_lookup d k with
  | Some v => v
  | None => default
  end.

(** Truthiness of a [pyval]: [None] and [""] are falsy. *)
Definition truthy (v : pyval) : bool :=
  match v with
  | PNone => false
  | PStr s => negb (String.eqb s "")
  end.

(** [a or b] *)
Definition py_or (a b : pyval) : pyval := if truthy a then a else b.

(** [str(v)] as used by an f-string hole. *)
Definition py_str (v : pyval) : string :=
  match v with
  | PNone => "None"
  | PStr s => s
  end.

(** The string literals below write the double quote as a backquote
    (the source has no backquote); [q] puts the double quotes back. *)
Definition dq : ascii := "034"%char.

Fixpoint q (s : string) : string :=
  match s with
  | EmptyString => EmptyString
  | String c s' =>
      String (if Ascii.eqb c "`"%char then dq else c) (q s')
  end.

(** Concatenation of the pieces of an f-string. *)
Fixpoint sconcat (l : list string) : string :=
  match l with
  | [] => ""
  | s :: l' => s ++ sconcat l'
  end.

(** [str(n)] for a non-negative int. *)
Fixpoint uint_str (d : Decimal.uint) : string :=
  match d with
  | Decimal.Nil => ""
  | Decimal.D0 d' => String "0" (uint_str d')
  | Decimal.D1 d' => String "1" (uint_str d')
  | Decimal.D2 d' => String "2" (uint_str d')
  | Decimal.D3 d' => String "3" (uint_str d')
  | Decimal.D4 d' => String "4" (uint_str d')
  | Decimal.D5 d' => String "5" (uint_str d')
  | Decimal.D6 d' => String "6" (uint_str d')
  | Decimal.D7 d' => String "7" (uint_str d')
  | Decimal.D8 d' => String "8" (uint_str d')
  | Decimal.D9 d' => String "9" (uint_str d')
  end.

Definition nat_str (n : nat) : string := uint_str (Nat.to_uint n).
Definition N_str (n : N) : string := uint_str (N.to_uint n).

(** [s.split(sep)]: Python keeps empty fields, so [""].split gives [[""]]. *)
Fixpoint str_split (sep : ascii) (s : string) : list string :=
  match s with
  | EmptyString => [""]
  | String c s' =>
      match str_split sep s' with
      | [] => [] (* unreachable: the result is never empty *)
      | f :: fs =>
          if Ascii.eqb c sep then "" :: f :: fs else String c f :: fs
      end
  end.

(** [xs[-1]] on a non-empty list. *)
Definition py_last (l : list string) : string := last l "".

Fixpoint rev_str (s : string) (acc : string) : string :=
  match s with
  | EmptyString => acc
  | String c s' => rev_str s' (String c acc)
  end.

(** The characters [str.isspace()] accepts, as their UTF-8 byte sequences
    (environment values and the [.env] file are decoded as UTF-8):
    U+0009-U+000D, U+001C-U+001F, U+0020, U+0085, U+00A0, U+1680,
    U+2000-U+200A, U+2028, U+2029, U+202F, U+205F and U+3000. *)
Definition utf8_spaces : list string :=
  map (fun l => string_of_list_ascii (map ascii_of_nat l))
    ([[9]; [10]; [11]; [12]; [13]; [28]; [29]; [30]; [31]; [32];
      [194; 133]; [194; 160]; [225; 154; 128]]
     ++ map (fun n => [226; 128; n]) (seq 128 11)
     ++ [[226; 128; 168]; [226; 128; 169]; [226; 128; 175]; [226; 129; 159];
         [227; 128; 128]]).

(** [s] with the prefix [p] removed, if [s] starts with [p]. *)
Fixpoint drop_prefix (p s : string) : option string :=
  match p, s with
  | EmptyString, _ => Some s
  | String c p', String d s' => if Ascii.eqb c d then drop_prefix p' s' else None
  | String _ _, EmptyString => None
  end.

(** [s] with the first of [pats] it starts with removed. *)
Fixpoint drop_any (pats : list string) (s : string) : option string :=
  match pats with
  | [] => None
  | p :: ps => match drop_prefix p s with Some r => Some r | None => drop_any ps s end
  end.

Fixpoint lstrip_by (pats : list string) (fuel : nat) (s : string) : string :=
  match fuel with
  | O => s
  | S fuel' => match drop_any pats s with Some r => lstrip_by pats fuel' r | None => s end
  end.

(** [s.lstrip()] *)
Definition lstrip (s : string) : string := lstrip_by utf8_spaces (String.length s) s.

(** The whitespace sequences read backwards, for [rstrip]. *)
Definition utf8_spaces_rev : list string := map (fun p => rev_str p "") utf8_spaces.

(** [s.strip()]: leading, then trailing whitespace removed. *)
Definition strip (s : string) : string :=
  let t := lstrip s in
  rev_str (lstrip_by utf8_spaces_rev (String.length t) (rev_str t "")) "".

(** [os.path.basename(p)] *)
Definition basename (p : string) : string := py_last (str_split "/" p).

(* ------------------------------------------------------------------ *)
(** ** JSON values (request payloads and response bodies) *)

Inductive json :=
| JNull
| JBool (b : bool)
| JNum (z : Z)
| JStr (s : string)
| JArr (l : list json)
| JObj (o : list (string * json)).

(** Key lookup in a decoded JSON object; [json.loads] keeps the last of
    duplicate keys. *)
Definition jlookup (o : list (string * json)) (k : string) : option json :=
  fold_left (fun acc kv => if String.eqb (fst kv) k then Some (snd kv) else acc)
    o None.

(** [o.get(k)] *)
Definition jget (o : list (string * json)) (k : string) : json :=
  match jlookup o k with Some v => v | None => JNull end.

(** Truthiness of a decoded JSON value. *)
Definition json_truthy (j : json) : bool :=
  match j with
  | JNull => false
  | JBool b => b
  | JNum z => negb (Z.eqb z 0)
  | JStr s => negb (String.eqb s "")
  | JArr l => match l with [] => false | _ => true end
  | JObj o => match o with [] => false | _ => true end
  end.

(** [base64.b64encode(data).decode('ascii')] (standard alphabet, padded). *)
Definition b64_alphabet : string :=
  "ABCDEFGHIJKLMNOPQRSTUVWXYZabcdefghijklmnopqrstuvwxyz0123456789+/".

Definition b64_char (n : N) : ascii :=
  match String.get (N.to_nat n) b64_alphabet with
  | Some c => c
  | None => "="%char
  end.

Definition byte_N (b : Byte.byte) : N := N.of_nat (Byte.to_nat b).

Definition sextet (n : N) (k : N) : ascii :=
  b64_char (N.land (N.shiftr n k) 63).

Fixpoint base64_encode (l : list Byte.byte) : string :=
  match l with
  | b1 :: b2 :: b3 :: rest =>
      let n := (byte_N b1 * 65536 + byte_N b2 * 256 + byte_N b3)%N in
      String (sextet n 18) (String (sextet n 12)
        (String (sextet n 6) (String (sextet n 0) (base64_encode rest))))
  | [b1; b2] =>
      let n := (byte_N b1 * 65536 + byte_N b2 * 256)%N in
      String (sextet n 18) (String (sextet n 12) (String (sextet n 6) "="))
  | [b1] =>
      let n := (byte_N b1 * 65536)%N in
      String (sextet n 18) (String (sextet n 12) "==")
  | [] => ""
  end.

(* ------------------------------------------------------------------ *)
(** ** The world the module runs in *)

(** Exceptions that can escape a call. *)
Inductive exn :=
| HTTPException (status_code : Z) (detail : string)
| ValueError (msg : string)
| Psycopg2Error                     (* psycopg2.Error from cursor.execute *)
| JSONDecodeError                   (* res.json() on a body that is not JSON *)
| AttributeError                    (* .get on a decoded value that is not a dict *)
| KeyError (key : string)
| OSError (path : string)           (* OSError or a subclass (FileNotFoundError,
                                       IsADirectoryError, FileExistsError,
                                       PermissionError) on [path] *)
| IllegalCharacterError.            (* openpyxl refusing a cell's string *)

(** The [print] calls of the module, by call site. *)
Inductive log_msg :=
| LogDbConnectError
| LogDbQueryError
| LogTokenHttpError (status : Z)
| LogNoAccessToken
| LogAttachmentOversize (size : nat)
| LogAttachmentAdded (filename : string) (size : nat) (b64_len : nat)
| LogAttachmentError
| LogAttachmentNotFound (path : string)
| LogNoAttachmentPath
| LogSendError (status : Z)
| LogExcelCreated (path : string)
| LogRowsGenerated (n : nat)
| LogEmailSent (to : string)
| LogTotal (n : nat)
| LogJob (company title : pyval)
| LogMore (n : nat).

(** Observable effects, in the order they happen. *)
Inductive event :=
| EvPrint (m : log_msg)
| EvDbOpen (dsn : string)
| EvDbExecute (sql : string) (params : list pyval)
| EvDbClose
| EvTokenRequest (url : string) (form : list (string * string))
| EvSendMail (url : string) (payload : json) (bearer : json)
| EvFileWrite (path : string)
| EvMkdir (path : string)
| EvAppCreated
| EvRoute (method path : string).

Inductive fs_entry :=
| FileRegular (content : list Byte.byte)
| FileDirectory.

(** The local file system: absolute path to entry, newest binding first. *)
Definition filesys := list (string * fs_entry).

Fixpoint fs_lookup (fs : filesys) (p : string) : option fs_entry :=
  match fs with
  | [] => None
  | (p', e) :: fs' => if String.eqb p' p then Some e else fs_lookup fs' p
  end.

(** [os.path.exists(p)] *)
Definition fs_exists (fs : filesys) (p : string) : bool :=
  match fs_lookup fs p with Some _ => true | None => false end.

(** [os.path.isdir(p)] *)
Definition is_dir (fs : filesys) (p : string) : bool :=
  match fs_lookup fs p with Some FileDirectory => true | _ => false end.

Inductive http_body :=
| BodyJson (j : json)
| BodyText (t : string).          (* a body that does not parse as JSON *)

Record http_response := {
  res_status : Z;
  res_body : http_body }.

(** [res.ok] of requests: the status is below 400. *)
Definition res_ok (r : http_response) : bool := Z.ltb (res_status r) 400.

(** The values [datetime.now()] is formatted to. *)
Record clock := {
  clk_date : string;        (* '%Y-%m-%d' *)
  clk_timestamp : string;   (* '%Y-%m-%d_%H%M%S' *)
  clk_stamp : string;       (* '%Y-%m-%d %H:%M IST' *)
  clk_year : N }.

(** A row of [public.karmafy_job]; [kj_ingestedAt] in seconds since the
    epoch. *)
Record karmafy_job := {
  kj_company : option string;
  kj_title : option string;
  kj_posted_by_profile : option string;
  kj_poster_full_name : option string;
  kj_url : option string;
  kj_company_url : option string;
  kj_source : option string;
  kj_ingestedAt : option Z }.

(** The PostgreSQL server: whether it accepts the connection, whether the
    statement runs, its [CURRENT_DATE] (days since the epoch) and the table. *)
Record db_server := {
  db_accepts : bool;
  db_executes : bool;
  db_current_date : Z;
  db_karmafy_job : list karmafy_job }.

(** A row of the Excel sheet built by [export_jobs_to_excel]. *)
Record excel_row := {
  x_idx : nat;
  x_company : pyval;
  x_job_title : pyval;
  x_posted_by : pyval;
  x_profile_url : pyval;
  x_job_url : pyval;
  x_company_url : pyval;
  x_source : pyval }.

Record world := {
  w_trace : list event;
  w_fs : filesys;
  w_clock : clock;
  w_db : db_server;
  w_token_res : http_response;   (* answer of the Azure AD token endpoint *)
  w_send_res : http_response;    (* answer of the Graph sendMail endpoint *)
  w_xlsx : list excel_row -> list Byte.byte; (* bytes pandas/openpyxl write *)
  w_xlsx_partial : list excel_row -> list Byte.byte;
    (* bytes of the unfinished workbook saved when openpyxl refuses a cell *)
  w_may_write : string -> bool
    (* whether the OS lets the process create or truncate the file at a path
       (permissions, read-only mounts, quotas) *) }.

(* ------------------------------------------------------------------ *)
(** ** A state and exception monad *)

Inductive outcome (A : Type) :=
| Ok (a : A)
| Err (e : exn).
Arguments Ok {A} a.
Arguments Err {A} e.

Definition M (A : Type) := world -> outcome A * world.

Definition ret {A} (a : A) : M A := fun w => (Ok a, w).

Definition bind {A B} (m : M A) (k : A -> M B) : M B :=
  fun w => match m w with
           | (Ok a, w') => k a w'
           | (Err e, w') => (Err e, w')
           end.

Definition raise {A} (e : exn) : M A := fun w => (Err e, w).

Definition get_world : M world := fun w => (Ok w, w).

Definition set_trace (w : world) (t : list event) : world :=
  {| w_trace := t; w_fs := w_fs w; w_clock := w_clock w; w_db := w_db w;
     w_token_res := w_token_res w; w_send_res := w_send_res w;
     w_xlsx := w_xlsx w; w_xlsx_partial := w_xlsx_partial w;
     w_may_write := w_may_write w |}.

Definition set_fs (w : world) (fs : filesys) : world :=
  {| w_trace := w_trace w; w_fs := fs; w_clock := w_clock w; w_db := w_db w;
     w_token_res := w_token_res w; w_send_res := w_send_res w;
     w_xlsx := w_xlsx w; w_xlsx_partial := w_xlsx_partial w;
     w_may_write := w_may_write w |}.

Definition emit (ev : event) : M unit :=
  fun w => (Ok tt, set_trace w (w_trace w ++ [ev])).

Definition print (m : log_msg) : M unit := emit (EvPrint m).

(** [try: m except e: h(e)] *)
Definition catch {A} (m : M A) (h : exn -> M A) : M A :=
  fun w => match m w with
           | (Err e, w') => h e w'
           | r => r
           end.

(** [try: m finally: f]: [f] runs on both exits; an exception of [f]
    replaces the outcome of [m]. *)
Definition finally {A} (m : M A) (f : M unit) : M A :=
  fun w => match m w with
           | (r, w1) =>
               match f w1 with
               | (Ok _, w2) => (r, w2)
               | (Err e, w2) => (Err e, w2)
               end
           end.

Notation "x <- m ;; k" := (bind m (fun x => k))
  (at level 61, m at next level, right associativity).
Notation "m ;; k" := (bind m (fun _ => k))
  (at level 61, right associativity).

(* ------------------------------------------------------------------ *)
(** ** Module-level configuration (lines 20-60) *)

Definition environ := list (string * string).

Fixpoint env_lookup (e : environ) (k : string) : option string :=
  match e with
  | [] => None
  | (k', v) :: e' => if String.eqb k' k then Some v else env_lookup e' k
  end.

(** [os.getenv(k)] after [load_dotenv(env_path)]: the process environment
    wins over the [.env] file (load_dotenv does not override). *)
Definition getenv (proc dotenv : environ) (k : string) : option string :=
  match env_lookup proc k with
  | Some v => Some v
  | None => env_lookup dotenv k
  end.

(** [os.getenv(k, default)] *)
Definition getenv_default (proc dotenv : environ) (k d : string) : string :=
  match getenv proc dotenv k with Some v => v | None => d end.

Definition opt_truthy (o : option string) : bool :=
  match o with Some s => negb (String.eqb s "") | None => false end.

Definition opt_str (o : option string) : string :=
  match o with Some s => s | None => "" end.

Record config := {
  TENANT_ID : string;
  CLIENT_ID : string;
  CLIENT_SECRET : string;
  SENDER_EMAIL : string;
  DATABASE_URL : string;
  TEST_EMAIL_RECIPIENT : string;
  CC_EMAIL_RECIPIENTS : list string;
  EXPORTS_DIR : string }.

Definition APP_NAME : string := "LinkedIn Job Postings Report".

(** [[email.strip() for email in s.split(",") if email.strip()]] *)
Definition parse_cc (s : string) : list string :=
  map strip (filter (fun e => negb (String.eqb (strip e) "")) (str_split "," s)).

Definition missing_azure_msg : string :=
  "Missing required Azure AD credentials. Please set the following environment variables:
  - AZURE_TENANT_ID
  - AZURE_CLIENT_ID
  - AZURE_CLIENT_SECRET".

Definition missing_db_msg : string :=
  "Missing required DATABASE_URL environment variable. Please set it in your .env file.".

(** [p.mkdir(exist_ok=True)] on the host's file system [fs], where
    [may_write p] says whether the OS lets the process create [p]: an
    existing directory is kept; an existing file raises FileExistsError; a
    missing parent FileNotFoundError; a refused creation PermissionError. *)
Definition mkdir_exist_ok (fs : filesys) (may_write : string -> bool)
  (parent p : string) : option exn :=
  match fs_lookup fs p with
  | Some FileDirectory => None
  | Some (FileRegular _) => Some (OSError p)
  | None => if is_dir fs parent && may_write p then None else Some (OSError p)
  end.

(** The routes [FastAPI()] registers when it is created: [openapi_url],
    [docs_url], [swagger_ui_oauth2_redirect_url] and [redoc_url] at their
    defaults. *)
Definition fastapi_default_routes : list event :=
  [EvRoute "GET" "/openapi.json"; EvRoute "GET" "/docs";
   EvRoute "GET" "/docs/oauth2-redirect"; EvRoute "GET" "/redoc"].

(** Import of the module: the configuration, or the exception raised, with
    the effects performed.  [fs] and [may_write] are the host's file system
    and write permissions; [module_dir] is [Path(__file__).parent]. *)
Definition module_load (proc dotenv : environ) (fs : filesys)
  (may_write : string -> bool) (module_dir : string)
  : outcome config * list event :=
  let tenant := getenv proc dotenv "AZURE_TENANT_ID" in
  let client := getenv proc dotenv "AZURE_CLIENT_ID" in
  let secret := getenv proc dotenv "AZURE_CLIENT_SECRET" in
  let sender := getenv_default proc dotenv "SENDER_EMAIL" "support@applywizz.com" in
  if negb (forallb opt_truthy [tenant; client; secret]) then
    (Err (ValueError missing_azure_msg), [])
  else
  let database_url := getenv proc dotenv "DATABASE_URL" in
  if negb (opt_truthy database_url) then
    (Err (ValueError missing_db_msg), [])
  else
  let cc_str := getenv_default proc dotenv "CC_EMAIL_RECIPIENTS" "" in
  let exports := module_dir ++ "/exports" in
  match mkdir_exist_ok fs may_write module_dir exports with
  | Some e => (Err e, [EvMkdir exports])
  | None =>
      (Ok {| TENANT_ID := opt_str tenant; CLIENT_ID := opt_str client;
             CLIENT_SECRET := opt_str secret; SENDER_EMAIL := sender;
             DATABASE_URL := opt_str database_url;
             TEST_EMAIL_RECIPIENT := "bhanutejathouti@gmail.com";
             CC_EMAIL_RECIPIENTS := parse_cc cc_str;
             EXPORTS_DIR := exports |},
       ([EvMkdir exports; EvAppCreated] ++ fastapi_default_routes
        ++ [EvRoute "POST" "/get-linkedin-jobs"; EvRoute "GET" "/"])%list)
  end.

(* ------------------------------------------------------------------ *)
(** ** Database access (lines 66-132) *)

(** The SQL text executed by [get_linkedin_job_postings]. *)
Definition linkedin_query : string :=
  q "
                SELECT
                    company,
                    title,
                    posted_by_profile,
                    poster_full_name,
                    url,
                    company_url,
                    source
                FROM public.karmafy_job
                WHERE `ingestedAt` >= CURRENT_DATE
                    AND `ingestedAt` < CURRENT_DATE + INTERVAL '1 day'
                    AND posted_by_profile IS NOT NULL
                    AND posted_by_profile <> ''
                    AND posted_by_profile IN (
                        SELECT posted_by_profile
                        FROM public.karmafy_job
                        WHERE `ingestedAt` >= CURRENT_DATE
                            AND `ingestedAt` < CURRENT_DATE + INTERVAL '1 day'
                            AND posted_by_profile IS NOT NULL
                            AND posted_by_profile <> ''
                        GROUP BY posted_by_profile
                        HAVING COUNT(DISTINCT title) > 2
                    )
                ORDER BY posted_by_profile, title
            ".

(** The semantics of [linkedin_query] on the table, for the server's
    [CURRENT_DATE] [day].  First the filter of both WHERE clauses:
    ["ingestedAt" >= CURRENT_DATE AND "ingestedAt" < CURRENT_DATE + 1 day]
    (a NULL timestamp fails it). *)
Definition ingested_on (day : Z) (r : karmafy_job) : bool :=
  match kj_ingestedAt r with
  | Some t => Z.leb (day * 86400) t && Z.ltb t ((day + 1) * 86400)
  | None => false
  end.

(** [posted_by_profile IS NOT NULL AND posted_by_profile <> ''] *)
Definition has_profile (r : karmafy_job) : bool :=
  match kj_posted_by_profile r with
  | Some p => negb (String.eqb p "")
  | None => false
  end.

Definition todays_rows (day : Z) (t : list karmafy_job) : list karmafy_job :=
  filter (fun r => ingested_on day r && has_profile r) t.

(** The distinct non-NULL titles of profile [p] among [rows]. *)
Definition distinct_titles (p : string) (rows : list karmafy_job) : list string :=
  nodup string_dec
    (flat_map (fun r => match kj_posted_by_profile r, kj_title r with
                        | Some p', Some t => if String.eqb p' p then [t] else []
                        | _, _ => []
                        end) rows).

(** [posted_by_profile IN (... GROUP BY posted_by_profile
    HAVING COUNT(DISTINCT title) > 2)] *)
Definition high_volume (rows : list karmafy_job) (r : karmafy_job) : bool :=
  match kj_posted_by_profile r with
  | Some p => Nat.ltb 2 (length (distinct_titles p rows))
  | None => false
  end.

(** Ascending order with NULLs last (PostgreSQL's default).  The statement
    fixes neither the collation of text nor the order of rows equal on both
    keys; the model compares bytewise (C collation) and keeps such rows in
    table order, one of the orders the server may return. *)
Definition opt_cmp (a b : option string) : comparison :=
  match a, b with
  | Some x, Some y => String.compare x y
  | Some _, None => Lt
  | None, Some _ => Gt
  | None, None => Eq
  end.

(** [ORDER BY posted_by_profile, title] *)
Definition row_le (r1 r2 : karmafy_job) : bool :=
  match opt_cmp (kj_posted_by_profile r1) (kj_posted_by_profile r2) with
  | Lt => true
  | Gt => false
  | Eq => match opt_cmp (kj_title r1) (kj_title r2) with Gt => false | _ => true end
  end.

Fixpoint insert_row (r : karmafy_job) (l : list karmafy_job) : list karmafy_job :=
  match l with
  | [] => [r]
  | r' :: l' => if row_le r r' then r :: l else r' :: insert_row r l'
  end.

Fixpoint sort_rows (l : list karmafy_job) : list karmafy_job :=
  match l with
  | [] => []
  | r :: l' => insert_row r (sort_rows l')
  end.

Definition query_rows (day : Z) (t : list karmafy_job) : list karmafy_job :=
  let today := todays_rows day t in
  sort_rows (filter (high_volume today) today).

Definition opt_py (o : option string) : pyval :=
  match o with Some s => PStr s | None => PNone end.

(** [dict(row)] of a [RealDictCursor] row, in the SELECT's column order. *)
Definition row_to_dict (r : karmafy_job) : dict :=
  [("company", opt_py (kj_company r));
   ("title", opt_py (kj_title r));
   ("posted_by_profile", opt_py (kj_posted_by_profile r));
   ("poster_full_name", opt_py (kj_poster_full_name r));
   ("url", opt_py (kj_url r));
   ("company_url", opt_py (kj_company_url r));
   ("source", opt_py (kj_source r))].

Section WithConfig.
Variable cfg : config.

(** [get_db_connection()] *)
Definition get_db_connection : M unit :=
  w <- get_world ;;
  if db_accepts (w_db w) then emit (EvDbOpen (DATABASE_URL cfg))
  else (print LogDbConnectError ;;
        raise (HTTPException 500 "Database connection failed")).

(** [get_linkedin_job_postings(target_date)].  As in the source, the
    defaulted [target_date] is computed and then not used: the statement has
    no parameters and filters on the server's [CURRENT_DATE]. *)
Definition get_linkedin_job_postings (target_date : option string) : M (list dict) :=
  get_db_connection ;;
  finally
    (catch
       (w <- get_world ;;
        let target_date :=
          match target_date with Some d => d | None => clk_date (w_clock w) end in
        emit (EvDbExecute linkedin_query []) ;;
        if db_executes (w_db w) then
          ret (map row_to_dict
                 (query_rows (db_current_date (w_db w)) (db_karmafy_job (w_db w))))
        else raise Psycopg2Error)
       (fun e => match e with
                 | Psycopg2Error =>
                     print LogDbQueryError ;;
                     raise (HTTPException 500 "Database query failed")
                 | e => raise e
                 end))
    (emit EvDbClose).

(* ------------------------------------------------------------------ *)
(** ** Azure AD token (lines 136-160) *)

Definition token_url : string :=
  "https://login.microsoftonline.com/" ++ TENANT_ID cfg ++ "/oauth2/v2.0/token".

Definition token_form : list (string * string) :=
  [("client_id", CLIENT_ID cfg);
   ("client_secret", CLIENT_SECRET cfg);
   ("scope", "https://graph.microsoft.com/.default");
   ("grant_type", "client_credentials")].

(** [get_access_token()]: the decoded [access_token] value. *)
Definition get_access_token : M json :=
  emit (EvTokenRequest token_url token_form) ;;
  w <- get_world ;;
  let res := w_token_res w in
  if negb (res_ok res) then
    (print (LogTokenHttpError (res_status res)) ;;
     raise (HTTPException 500 "Failed to get access token from Azure AD"))
  else
    match res_body res with
    | BodyText _ => raise JSONDecodeError                 (* res.json() *)
    | BodyJson (JObj json_data) =>
        let access_token := jget json_data "access_token" in
        if negb (json_truthy access_token) then
          (print LogNoAccessToken ;;
           raise (HTTPException 500 "No access token received from Azure AD"))
        else ret access_token
    | BodyJson _ => raise AttributeError                  (* json_data.get *)
    end.

(* ------------------------------------------------------------------ *)
(** ** Sending mail through Graph (lines 166-250) *)

(** [{"emailAddress": {"address": addr}}] *)
Definition recipient (addr : string) : json :=
  JObj [("emailAddress", JObj [("address", JStr addr)])].

Definition xlsx_mime : string :=
  "application/vnd.openxmlformats-officedocument.spreadsheetml.sheet".

(** [open(p, 'rb').read()] *)
Definition read_file (p : string) : M (list Byte.byte) :=
  w <- get_world ;;
  match fs_lookup (w_fs w) p with
  | Some (FileRegular c) => ret c
  | _ => raise (OSError p)
  end.

(** The [try] block of lines 207-231: the message with its attachment. *)
Definition attach (message : list (string * json)) (p : string)
  : M (list (string * json)) :=
  catch
    (file_content <- read_file p ;;
     let file_base64 := base64_encode file_content in
     let filename := basename p in
     let size := length file_content in
     (if Z.ltb (4 * 1024 * 1024) (Z.of_nat size)
      then print (LogAttachmentOversize size) else ret tt) ;;
     let message :=
       app message
       [("attachments",
         JArr [JObj [("@odata.type", JStr "#microsoft.graph.fileAttachment");
                     ("name", JStr filename);
                     ("contentType", JStr xlsx_mime);
                     ("contentBytes", JStr file_base64)]])] in
     print (LogAttachmentAdded filename size (String.length file_base64)) ;;
     ret message)
    (fun e => print LogAttachmentError ;; raise e).

(** [send_mail_via_graph(to, subject, html, cc, attachment_path)]; the
    [Authorization: Bearer ...] header is recorded as the token value. *)
Definition send_mail_via_graph (to subject html : string)
  (cc : option (list string)) (attachment_path : option string) : M unit :=
  access_token <- get_access_token ;;
  let url := "https://graph.microsoft.com/v1.0/users/" ++ SENDER_EMAIL cfg ++ "/sendMail" in
  let message :=
    [("subject", JStr subject);
     ("body", JObj [("contentType", JStr "HTML"); ("content", JStr html)]);
     ("toRecipients", JArr [recipient to])] in
  let message :=
    match cc with
    | Some ((_ :: _) as l) => app message [("ccRecipients", JArr (map recipient l))]
    | _ => message
    end in
  w <- get_world ;;
  message <-
    match attachment_path with
    | Some p =>
        if negb (String.eqb p "") then
          (if fs_exists (w_fs w) p then attach message p
           else (print (LogAttachmentNotFound p) ;; ret message))
        else (print LogNoAttachmentPath ;; ret message)
    | None => print LogNoAttachmentPath ;; ret message
    end ;;
  let payload := JObj [("message", JObj message); ("saveToSentItems", JBool true)] in
  emit (EvSendMail url payload access_token) ;;
  w <- get_world ;;
  let res := w_send_res w in
  if res_ok res then ret tt
  else (print (LogSendError (res_status res)) ;;
        raise (HTTPException 500 "Failed to send email via Microsoft Graph")).

(* ------------------------------------------------------------------ *)
(** ** Excel export (lines 256-313) *)

(** [job.get(k, d) or d] *)
Definition job_field (job : dict) (k d : string) : pyval :=
  py_or (dict_get job k (PStr d)) (PStr d).

Definition excel_row_of (idx : nat) (job : dict) : excel_row :=
  {| x_idx := idx;
     x_company := job_field job "company" "N/A";
     x_job_title := job_field job "title" "N/A";
     x_posted_by := job_field job "poster_full_name" "N/A";
     x_profile_url := job_field job "posted_by_profile" "";
     x_job_url := job_field job "url" "";
     x_company_url := job_field job "company_url" "";
     x_source := job_field job "source" "N/A" |}.

Fixpoint excel_rows_from (idx : nat) (jobs : list dict) : list excel_row :=
  match jobs with
  | [] => []
  | job :: jobs' => excel_row_of idx job :: excel_rows_from (S idx) jobs'
  end.

(** openpyxl's [ILLEGAL_CHARACTERS_RE]: [\000-\010], [\013-\014] and
    [\016-\037]. *)
Definition illegal_char (c : ascii) : bool :=
  let n := nat_of_ascii c in
  Nat.leb n 8 || Nat.eqb n 11 || Nat.eqb n 12 || (Nat.leb 14 n && Nat.leb n 31).

(** Whether openpyxl accepts a cell value: a [str] is refused when it holds
    an illegal character. *)
Definition cell_ok (v : pyval) : bool :=
  match v with
  | PNone => true
  | PStr s => negb (existsb illegal_char (list_ascii_of_string s))
  end.

Definition row_ok (r : excel_row) : bool :=
  forallb cell_ok [x_company r; x_job_title r; x_posted_by r; x_profile_url r;
                   x_job_url r; x_company_url r; x_source r].

(** [pd.ExcelWriter(filepath)] opens [p] in directory [dir] for writing: the
    directory must exist, [p] must not be a directory and the OS must allow
    it. *)
Definition open_for_write (dir p : string) : M unit :=
  w <- get_world ;;
  if is_dir (w_fs w) dir && negb (is_dir (w_fs w) p) && w_may_write w p
  then ret tt else raise (OSError p).

Definition write_file (p : string) (content : list Byte.byte) : M unit :=
  fun w => (Ok tt, set_fs w ((p, FileRegular content) :: w_fs w)).

(** [export_jobs_to_excel(jobs_data)]: the sheet's bytes (column widths,
    bold header) are what the Excel library produces, [w_xlsx].  When
    [df.to_excel] raises on a refused cell, leaving the [with] block closes
    the writer, which saves the unfinished workbook before the exception
    propagates. *)
Definition export_jobs_to_excel (jobs_data : list dict) : M string :=
  w <- get_world ;;
  let filename := "linkedin_jobs_" ++ clk_timestamp (w_clock w) ++ ".xlsx" in
  let filepath := EXPORTS_DIR cfg ++ "/" ++ filename in
  let excel_data := excel_rows_from 1 jobs_data in
  open_for_write (EXPORTS_DIR cfg) filepath ;;
  if forallb row_ok excel_data then
    (write_file filepath (w_xlsx w excel_data) ;;
     emit (EvFileWrite filepath) ;;
     print (LogExcelCreated filepath) ;;
     ret filepath)
  else
    (write_file filepath (w_xlsx_partial w excel_data) ;;
     emit (EvFileWrite filepath) ;;
     raise IllegalCharacterError).

(* ------------------------------------------------------------------ *)
(** ** The HTML report (lines 317-549) *)

(** One [<tr>] of the table, lines 328-350. *)
Definition job_row_html (idx : nat) (job : dict) : string :=
  let company := job_field job "company" "N/A" in
  let title := job_field job "title" "N/A" in
  let url := job_field job "url" "#" in
  let company_url := job_field job "company_url" "#" in
  let poster_full_name := job_field job "poster_full_name" "N/A" in
  let posted_by_profile := job_field job "posted_by_profile" "#" in
  let source := job_field job "source" "N/A" in
  sconcat
  [q "
        <tr style=`border-bottom: 1px solid #e5e7eb;`>
            <td style=`padding: 10px 8px; text-align: center; color: #6b7280; font-weight: 600; font-size: 13px;`>";
   nat_str idx;
   q "</td>
            <td style=`padding: 10px 8px; color: #111827; font-weight: 600; font-size: 13px;`>
                <a href=`";
   py_str company_url;
   q "` target=`_blank` style=`color: #2563eb; text-decoration: none;`>";
   py_str company;
   q "</a>
            </td>
            <td style=`padding: 10px 8px; color: #111827; font-size: 13px;`>
                <a href=`";
   py_str url;
   q "` target=`_blank` style=`color: #059669; text-decoration: none; font-weight: 500;`>";
   py_str title;
   q "</a>
            </td>
            <td style=`padding: 10px 8px; color: #5b21b6; font-weight: 600; font-size: 13px;`>
                <a href=`";
   py_str posted_by_profile;
   q "` target=`_blank` style=`color: #5b21b6; text-decoration: none;`>";
   py_str poster_full_name;
   q "</a>
            </td>
            <td style=`padding: 10px 8px; text-align: center; color: #6b7280; font-size: 12px; text-transform: uppercase;`>";
   py_str source;
   q "</td>
        </tr>
        "].

(** [jobs_rows], built by the loop over [enumerate(jobs_data, 1)]. *)
Fixpoint rows_from (idx : nat) (jobs : list dict) : string :=
  match jobs with
  | [] => ""
  | job :: jobs' => job_row_html idx job ++ rows_from (S idx) jobs'
  end.

(** [excel_filepath.split(chr(92))[-1] if excel_filepath else 'Excel Report'] *)
Definition excel_label (excel_filepath : string) : string :=
  if String.eqb excel_filepath "" then "Excel Report"
  else py_last (str_split "092"%char excel_filepath).

(** The f-string of lines 355-547, at the time [now]. *)
Definition render_job_postings_email (app_name : string) (jobs_data : list dict)
  (excel_filepath support_url : string) (now : clock) : string :=
  let jobs_rows := rows_from 1 jobs_data in
  sconcat
  [q "<!DOCTYPE html>
<html lang=`en`>
<head>
  <meta charSet=`UTF-8` />
  <title>";
   app_name;
   q " – Daily Report</title>
  <meta name=`viewport` content=`width=device-width, initial-scale=1` />
  <style>
    body {
      margin: 0;
      padding: 0;
      background-color: #f3f4f6;
      font-family: system-ui, -apple-system, BlinkMacSystemFont, `Segoe UI`, sans-serif;
      color: #111827;
    }
    .container {
      max-width: 1100px;
      margin: 32px auto;
      background: #ffffff;
      border-radius: 16px;
      overflow: hidden;
      box-shadow: 0 18px 45px rgba(15, 23, 42, 0.12);
    }
    .header {
      background: linear-gradient(135deg, #0a66c2, #0077b5);
      padding: 24px 32px;
      color: white;
      text-align: left;
    }
    .title {
      margin-top: 10px;
      font-size: 24px;
      font-weight: 700;
      color: white;
    }
    .sub {
      margin-top: 6px;
      font-size: 14px;
      opacity: 0.9;
      color: white;
    }
    .body {
      padding: 24px 32px 32px;
      font-size: 14px;
      line-height: 1.6;
    }
    .info-box {
      background-color: #eff6ff;
      border-left: 4px solid #0a66c2;
      padding: 16px;
      margin: 20px 0;
      border-radius: 8px;
    }
    .table-wrapper {
      overflow-x: auto;
      margin: 20px 0;
    }
    table {
      width: 100%;
      min-width: 800px;
      border-collapse: collapse;
      background: white;
      border: 1px solid #e5e7eb;
      border-radius: 8px;
      overflow: hidden;
    }
    th {
      background: #f9fafb;
      padding: 12px 8px;
      text-align: left;
      font-weight: 700;
      font-size: 11px;
      text-transform: uppercase;
      letter-spacing: 0.03em;
      color: #6b7280;
      border-bottom: 2px solid #e5e7eb;
      white-space: nowrap;
    }
    td {
      padding: 10px 8px;
      font-size: 13px;
      border-bottom: 1px solid #f3f4f6;
    }
    th:nth-child(1), th:nth-child(5) {
      text-align: center;
    }
    td:nth-child(1), td:nth-child(5) {
      text-align: center;
    }
    .footer {
      padding: 16px 32px 24px;
      font-size: 11px;
      color: #9ca3af;
      text-align: center;
    }
    .cta-button {
      display: inline-block;
      margin-top: 18px;
      padding: 12px 24px;
      background: linear-gradient(135deg, #0a66c2, #0077b5);
      color: white !important;
      text-decoration: none;
      border-radius: 999px;
      font-weight: 600;
      font-size: 14px;
    }
    a {
      color: #0a66c2;
      text-decoration: none;
    }
    a:hover {
      text-decoration: underline;
    }
  </style>
</head>
<body>
  <div class=`container`>
    <div class=`header`>
      <div class=`title`>📊 LinkedIn Job Postings Report</div>
      <div class=`sub`>
        ";
   nat_str (length jobs_data);
   q " job posting(s) from high-volume posters (3+ jobs today)
      </div>
    </div>
    <div class=`body`>
      <p>Hi Team,</p>
      <p>
        This is your daily automated report of <strong>";
   nat_str (length jobs_data);
   q " job posting(s)</strong> from high-volume posters who have posted more than 2 jobs today.
      </p>

      <div class=`info-box`>
        <strong>ℹ️ Report Details:</strong> This report includes all jobs from poster profiles that have posted <strong>more than 2 jobs today</strong>. These high-volume posters may be recruiters or hiring managers with multiple open positions.
      </div>

      <div style=`background: linear-gradient(135deg, #0a66c2, #0077b5); padding: 24px; border-radius: 12px; margin: 24px 0; text-align: center;`>
        <h3 style=`color: white; margin: 0 0 12px 0;`>📎 Excel Report Attached</h3>
        <p style=`color: white; opacity: 0.95; margin: 0 0 16px 0; font-size: 14px;`>
          All ";
   nat_str (length jobs_data);
   q " job postings are available in the attached Excel file
        </p>
        <div style=`display: inline-block; padding: 14px 32px; background: white; color: #0a66c2; border-radius: 999px; font-weight: 700; font-size: 15px; box-shadow: 0 4px 12px rgba(0,0,0,0.15);`>
          📊 ";
   excel_label excel_filepath;
   q "
        </div>
        <p style=`color: white; opacity: 0.85; margin: 12px 0 0 0; font-size: 12px;`>
          Check your email attachments to download the file
        </p>
      </div>

      <h3 style=`color: #111827; margin-top: 24px;`>All Job Postings (";
   nat_str (length jobs_data);
   q " Jobs)</h3>
      
      <div class=`table-wrapper`>
        <table>
          <thead>
            <tr>
              <th>#</th>
              <th>Company</th>
              <th>Job Title</th>
              <th>Posted By</th>
              <th>Source</th>
            </tr>
          </thead>
          <tbody>
            ";
   jobs_rows;
   q "
          </tbody>
        </table>
      </div>

      <p style=`margin-top: 16px; padding: 12px; background: #f0fdf4; border-left: 4px solid #10b981; color: #065f46; font-size: 13px; border-radius: 4px;`>
        ✅ <strong>Table Complete:</strong> Showing all ";
   nat_str (length jobs_data);
   q " job postings above (rows 1-";
   nat_str (length jobs_data);
   q ")
      </p>

      <p style=`margin-top: 24px; color: #6b7280; font-size: 13px;`>
        <strong>Quick Stats:</strong>
      </p>
      <ul style=`color: #6b7280; font-size: 13px;`>
        <li>Total job postings: ";
   nat_str (length jobs_data);
   q "</li>
        <li>Filter criteria: Poster profiles with 3+ jobs posted today</li>
        <li>All postings include poster profile information</li>
        <li>Posted date: ";
   clk_date now;
   q "</li>
      </ul>

      <a href=`";
   support_url;
   q "` class=`cta-button` target=`_blank` rel=`noopener noreferrer`>
        View Dashboard
      </a>

      <p style=`margin-top: 24px; color: #9ca3af; font-size: 12px;`>
        This is an automated notification from ";
   app_name;
   q ". Generated on ";
   clk_stamp now;
   q ".
      </p>
    </div>
    <div class=`footer`>
      © ";
   N_str (clk_year now);
   q " ";
   app_name;
   q ". All rights reserved.
    </div>
  </div>
</body>
</html>
"].

Definition default_support_url : string := "https://dashboard.apply-wizz.com/".

(** [build_job_postings_email_template(app_name, jobs_data, excel_filepath,
    support_url)] *)
Definition build_job_postings_email_template (app_name : string)
  (jobs_data : list dict) (excel_filepath support_url : string) : M string :=
  print (LogRowsGenerated (length jobs_data)) ;;
  w <- get_world ;;
  ret (render_job_postings_email app_name jobs_data excel_filepath support_url
         (w_clock w)).

(* ------------------------------------------------------------------ *)
(** ** The endpoint [POST /get-linkedin-jobs] (lines 554-607) *)

Record handler_response := {
  resp_success : bool;
  resp_message : string;
  resp_jobs_count : nat;
  resp_jobs : option (list dict);
  resp_email_sent : bool;
  resp_email_sent_to : option string;
  resp_excel_file : option string }.

(** [d[k]] *)
Definition py_subscript (d : dict) (k : string) : M pyval :=
  match dict_lookup d k with
  | Some v => ret v
  | None => raise (KeyError k)
  end.

Fixpoint print_jobs (jobs : list dict) : M unit :=
  match jobs with
  | [] => ret tt
  | job :: jobs' =>
      company <- py_subscript job "company" ;;
      title <- py_subscript job "title" ;;
      print (LogJob company title) ;;
      print_jobs jobs'
  end.

Definition no_jobs_response : handler_response :=
  {| resp_success := true;
     resp_message := "No high-volume posters found today (no profiles with 3+ job postings)!";
     resp_jobs_count := 0;
     resp_jobs := None;
     resp_email_sent := false;
     resp_email_sent_to := None;
     resp_excel_file := None |}.

(** [get_linkedin_jobs()] *)
Definition get_linkedin_jobs : M handler_response :=
  job_postings <- get_linkedin_job_postings None ;;
  match job_postings with
  | [] => ret no_jobs_response
  | _ :: _ =>
      excel_filepath <- export_jobs_to_excel job_postings ;;
      w <- get_world ;;
      let n := length job_postings in
      let subject := APP_NAME ++ ": " ++ nat_str n
                     ++ " Job(s) from High-Volume Posters - " ++ clk_date (w_clock w) in
      html <- build_job_postings_email_template APP_NAME job_postings excel_filepath
                default_support_url ;;
      send_mail_via_graph (TEST_EMAIL_RECIPIENT cfg) subject html
        (Some (CC_EMAIL_RECIPIENTS cfg)) (Some excel_filepath) ;;
      print (LogEmailSent (TEST_EMAIL_RECIPIENT cfg)) ;;
      print (LogTotal n) ;;
      print_jobs (firstn 5 job_postings) ;;
      (if Nat.ltb 5 n then print (LogMore (n - 5)) else ret tt) ;;
      ret {| resp_success := true;
             resp_message := "Found " ++ nat_str n
               ++ " job posting(s) from high-volume posters - email sent with Excel report";
             resp_jobs_count := n;
             resp_jobs := Some job_postings;
             resp_email_sent := true;
             resp_email_sent_to := Some (TEST_EMAIL_RECIPIENT cfg);
             resp_excel_file := Some excel_filepath |}
  end.

End WithConfig.

(* ================================================================== *)
(** * Properties *)

Arguments res_ok : simpl never.
Arguments basename : simpl never.
Arguments base64_encode : simpl never.
Arguments render_job_postings_email : simpl never.
Arguments job_row_html : simpl never.
Arguments token_url : simpl never.
Arguments token_form : simpl never.

(** The four values whose absence stops the import (lines 30 and 40). *)
Definition required_config_present (proc dotenv : environ) : bool :=
  forallb opt_truthy
    [getenv proc dotenv "AZURE_TENANT_ID"; getenv proc dotenv "AZURE_CLIENT_ID";
     getenv proc dotenv "AZURE_CLIENT_SECRET"; getenv proc dotenv "DATABASE_URL"].

(** The seven fields of a table row with their placeholders, as the
    [job.get(k, d) or d] lines 328-334 of the template read them. *)
Definition row_placeholders : list (string * string) :=
  [("company", "N/A"); ("title", "N/A"); ("url", "#"); ("company_url", "#");
   ("poster_full_name", "N/A"); ("posted_by_profile", "#"); ("source", "N/A")].

(** A job dict without a [company] key. *)
Definition job_missing_company : dict :=
  [("title", PStr "Data Engineer"); ("url", PStr "https://www.linkedin.com/jobs/view/1")].

(** ** Statement helpers *)

(** [s] occurs in [t]. *)
Definition occurs_in (s t : string) : Prop := exists a b, t = a ++ s ++ b.

Definition is_graph_call (e : event) : bool :=
  match e with
  | EvTokenRequest _ _ | EvSendMail _ _ _ => true
  | _ => false
  end.

Definition is_send (e : event) : bool :=
  match e with EvSendMail _ _ _ => true | _ => false end.

(** The [access_token] of a token response body that decodes to a dict. *)
Definition body_token (b : http_body) : option json :=
  match b with
  | BodyJson (JObj o) => Some (jget o "access_token")
  | _ => None
  end.

(** A token response that [get_access_token] accepts, with its token. *)
Definition token_ok (r : http_response) (tok : json) : Prop :=
  res_ok r = true /\ body_token (res_body r) = Some tok /\ json_truthy tok = true.

Definition graph_url (cfg : config) : string :=
  "https://graph.microsoft.com/v1.0/users/" ++ SENDER_EMAIL cfg ++ "/sendMail".

Definition base_message (to subject html : string) : list (string * json) :=
  [("subject", JStr subject);
   ("body", JObj [("contentType", JStr "HTML"); ("content", JStr html)]);
   ("toRecipients", JArr [recipient to])].

Definition cc_part (cc : option (list string)) : list (string * json) :=
  match cc with
  | Some ((_ :: _) as l) => [("ccRecipients", JArr (map recipient l))]
  | _ => []
  end.

Definition attachment_json (p : string) (c : list Byte.byte) : json :=
  JObj [("@odata.type", JStr "#microsoft.graph.fileAttachment");
        ("name", JStr (basename p));
        ("contentType", JStr xlsx_mime);
        ("contentBytes", JStr (base64_encode c))].

Definition send_outcome (r : http_response) : outcome unit :=
  if res_ok r then Ok tt
  else Err (HTTPException 500 "Failed to send email via Microsoft Graph").

Definition send_tail (r : http_response) : list event :=
  if res_ok r then [] else [EvPrint (LogSendError (res_status r))].

Definition oversize_log (c : list Byte.byte) : list event :=
  if Z.ltb (4 * 1024 * 1024) (Z.of_nat (length c))
  then [EvPrint (LogAttachmentOversize (length c))] else [].

(** [str(filepath.absolute())] of the Excel file written at time [now]. *)
Definition export_path (cfg : config) (now : clock) : string :=
  EXPORTS_DIR cfg ++ "/" ++ ("linkedin_jobs_" ++ clk_timestamp now ++ ".xlsx").

(** The Excel export of [jobs] can complete: the exports directory exists,
    the report's path is not a directory and may be written, and openpyxl
    accepts every cell of the sheet. *)
Definition export_ok (cfg : config) (jobs : list dict) (w : world) : bool :=
  is_dir (w_fs w) (EXPORTS_DIR cfg)
  && negb (is_dir (w_fs w) (export_path cfg (w_clock w)))
  && w_may_write w (export_path cfg (w_clock w))
  && forallb row_ok (excel_rows_from 1 jobs).

(** The messages of the sendMail calls of a trace. *)
Definition sent_messages (t : list event) : list (list (string * json)) :=
  flat_map (fun e => match e with
                     | EvSendMail _ (JObj o) _ =>
                         match jlookup o "message" with
                         | Some (JObj m) => [m]
                         | _ => []
                         end
                     | _ => []
                     end) t.

(** ** Concrete inputs *)

Definition cfg_example : config :=
  {| TENANT_ID := "tenant-1"; CLIENT_ID := "client-1"; CLIENT_SECRET := "secret-1";
     SENDER_EMAIL := "support@applywizz.com";
     DATABASE_URL := "postgresql://reports@db/karmafy";
     TEST_EMAIL_RECIPIENT := "bhanutejathouti@gmail.com";
     CC_EMAIL_RECIPIENTS := [];
     EXPORTS_DIR := "/srv/karmafy/exports" |}.

(** 2024-10-04 is day 20000 after 1970-01-01. *)
Definition day_example : Z := 20000%Z.

Definition posting (title : string) (secs : Z) : karmafy_job :=
  {| kj_company := Some "Acme"; kj_title := Some title;
     kj_posted_by_profile := Some "https://www.linkedin.com/in/recruiter";
     kj_poster_full_name := Some "Jane Recruiter";
     kj_url := Some "https://www.linkedin.com/jobs/view/1";
     kj_company_url := None; kj_source := Some "linkedin";
     kj_ingestedAt := Some (day_example * 86400 + secs)%Z |}.

(** One profile with three distinct titles, all ingested on 2024-10-04. *)
Definition table_example : list karmafy_job :=
  [posting "Data Engineer" 3600%Z; posting "Backend Engineer" 7200%Z;
   posting "ML Engineer" 10800%Z].

Definition clock_example (date : string) : clock :=
  {| clk_date := date; clk_timestamp := date ++ "_090000";
     clk_stamp := date ++ " 09:00 IST"; clk_year := 2024%N |}.

Definition db_example (today : Z) (rows : list karmafy_job) : db_server :=
  {| db_accepts := true; db_executes := true; db_current_date := today;
     db_karmafy_job := rows |}.

Definition token_response_example : http_response :=
  {| res_status := 200%Z;
     res_body := BodyJson (JObj [("token_type", JStr "Bearer");
                                 ("access_token", JStr "eyJ0eXAiOiJKV1Qi")]) |}.

Definition mk_world (fs : filesys) (clk : clock) (db : db_server)
  (tok : http_response) : world :=
  {| w_trace := []; w_fs := fs; w_clock := clk; w_db := db; w_token_res := tok;
     w_send_res := {| res_status := 202%Z; res_body := BodyText "" |};
     w_xlsx := fun _ => [Byte.x50; Byte.x4b; Byte.x03; Byte.x04];
     w_xlsx_partial := fun _ => [Byte.x50; Byte.x4b; Byte.x05; Byte.x06];
     w_may_write := fun _ => true |}.

(** The module's directory with its [exports] directory. *)
Definition exports_fs : filesys :=
  [("/srv/karmafy/exports", FileDirectory); ("/srv/karmafy", FileDirectory)].

(** The host before the first import: the module's directory only. *)
Definition host_fs : filesys := [("/srv/karmafy", FileDirectory)].

Definition world_example : world :=
  mk_world exports_fs (clock_example "2024-10-04") (db_example day_example table_example)
    token_response_example.

(** The day after: the server's CURRENT_DATE is 2024-10-05. *)
Definition world_next_day : world :=
  mk_world exports_fs (clock_example "2024-10-05") (db_example (day_example + 1)%Z table_example)
    token_response_example.

Definition world_empty : world :=
  mk_world exports_fs (clock_example "2024-10-04") (db_example day_example [])
    token_response_example.

(** An ok token response whose body is an HTML error page. *)
Definition world_html_token : world :=
  mk_world exports_fs (clock_example "2024-10-04") (db_example day_example table_example)
    {| res_status := 200%Z; res_body := BodyText "<html>Service Unavailable</html>" |}.

(** A file of 4 MB and one byte. *)
Definition big_content : list Byte.byte := repeat Byte.x00 (Z.to_nat 4194305%Z).

Definition world_big_file : world :=
  mk_world (("/srv/karmafy/exports/report.xlsx", FileRegular big_content) :: exports_fs)
    (clock_example "2024-10-04") (db_example day_example table_example)
    token_response_example.

Definition env_required : environ :=
  [("AZURE_TENANT_ID", "tenant-1"); ("AZURE_CLIENT_ID", "client-1");
   ("AZURE_CLIENT_SECRET", "secret-1");
   ("DATABASE_URL", "postgresql://reports@db/karmafy")].

(** A recipient set through the environment, under the names a deployment
    would use. *)
Definition env_with_recipient (addr : string) : environ :=
  ("TEST_EMAIL_RECIPIENT", addr) :: ("RECIPIENT_EMAIL", addr) :: env_required.

(** ** Helpers for the further properties *)

(** [c in s] *)
Definition has_char (c : ascii) (s : string) : bool :=
  existsb (Ascii.eqb c) (list_ascii_of_string s).

(** The characters [base64.b64encode] output is drawn from. *)
Definition b64_chars : string := b64_alphabet ++ "=".


(** ** More concrete inputs *)

Definition with_token (tok : http_response) : world :=
  mk_world exports_fs (clock_example "2024-10-04") (db_example day_example table_example) tok.

(** Azure AD refuses the client credentials. *)
Definition world_token_denied : world :=
  with_token {| res_status := 401%Z;
                res_body := BodyJson (JObj [("error", JStr "invalid_client")]) |}.

(** An ok token response whose JSON body is an array. *)
Definition world_token_array : world :=
  with_token {| res_status := 200%Z; res_body := BodyJson (JArr []) |}.

(** Graph refuses the sendMail request. *)
Definition world_send_rejected : world :=
  {| w_trace := []; w_fs := exports_fs; w_clock := clock_example "2024-10-04";
     w_db := db_example day_example table_example;
     w_token_res := token_response_example;
     w_send_res := {| res_status := 403%Z; res_body := BodyText "Forbidden" |};
     w_xlsx := fun _ => []; w_xlsx_partial := fun _ => []; w_may_write := fun _ => true |}.

(** The exports directory is missing. *)
Definition world_no_exports : world :=
  mk_world host_fs (clock_example "2024-10-04") (db_example day_example table_example)
    token_response_example.



(** An [exports] file where the directory should be. *)
Definition host_fs_exports_file : filesys :=
  [("/srv/karmafy/exports", FileRegular []); ("/srv/karmafy", FileDirectory)].

(** The server refuses the connection. *)
Definition world_db_down : world :=
  mk_world exports_fs (clock_example "2024-10-04")
    {| db_accepts := false; db_executes := true; db_current_date := day_example;
       db_karmafy_job := table_example |} token_response_example.

(** The statement fails on the server. *)
Definition world_db_broken : world :=
  mk_world exports_fs (clock_example "2024-10-04")
    {| db_accepts := true; db_executes := false; db_current_date := day_example;
       db_karmafy_job := table_example |} token_response_example.

(** ** Strings *)

Lemma sapp_assoc (a b c : string) : (a ++ b) ++ c = a ++ (b ++ c).
Proof. induction a as [|ch a IH]; simpl; [reflexivity | now rewrite IH]. Qed.

Lemma sapp_nil_r (a : string) : a ++ "" = a.
Proof. induction a as [|ch a IH]; simpl; [reflexivity | now rewrite IH]. Qed.

Lemma sconcat_app (l1 l2 : list string) :
  sconcat (l1 ++ l2) = sconcat l1 ++ sconcat l2.
Proof.
  induction l1 as [|x l1 IH]; simpl; [reflexivity|].
  now rewrite IH, sapp_assoc.
Qed.

Lemma occurs_in_sconcat (x : string) (l : list string) :
  In x l -> occurs_in x (sconcat l).
Proof.
  induction l as [|y l IH]; simpl; [tauto|].
  intros [<- | Hin].
  - exists "", (sconcat l). reflexivity.
  - destruct (IH Hin) as (a & b & ->).
    exists (y ++ a), b. now rewrite sapp_assoc.
Qed.

Lemma occurs_in_trans (s t u : string) : occurs_in s t -> occurs_in t u -> occurs_in s u.
Proof.
  intros (a & b & ->) (c & d & ->). exists (c ++ a), (b ++ d).
  now rewrite !sapp_assoc.
Qed.

Lemma occurs_in_app_l (s t u : string) : occurs_in s t -> occurs_in s (t ++ u).
Proof.
  intros (a & b & ->). exists a, (b ++ u). now rewrite !sapp_assoc.
Qed.

Lemma occurs_in_app_r (s t u : string) : occurs_in s u -> occurs_in s (t ++ u).
Proof.
  intros (a & b & ->). exists (t ++ a), b. now rewrite !sapp_assoc.
Qed.

Lemma substring_split (s : string) (n : nat) :
  s = substring 0 n s ++ substring n (String.length s - n) s.
Proof.
  revert n; induction s as [|c s IH]; intros n; simpl.
  - destruct n; reflexivity.
  - destruct n as [|n]; simpl.
    + f_equal. clear IH. induction s as [|c' s IH']; simpl; [reflexivity|].
      now rewrite <- IH'.
    + f_equal. apply IH.
Qed.

(** ** The monad *)

Lemma bind_ok {A B} (m : M A) (k : A -> M B) (w : world) (a : A) (w' : world) :
  m w = (Ok a, w') -> bind m k w = k a w'.
Proof. unfold bind. intros ->. reflexivity. Qed.

Lemma set_trace_twice (w : world) (t1 t2 : list event) :
  set_trace (set_trace w t1) t2 = set_trace w t2.
Proof. reflexivity. Qed.

Lemma set_trace_same (w : world) : set_trace w (w_trace w) = w.
Proof. destruct w; reflexivity. Qed.

Ltac unfold_monad :=
  unfold bind, ret, raise, get_world, emit, print, catch, finally in *.

(** ** Database access *)

Lemma get_linkedin_job_postings_spec (cfg : config) (td : option string) (w : world) :
  db_accepts (w_db w) = true ->
  get_linkedin_job_postings cfg td w =
  (if db_executes (w_db w)
   then Ok (map row_to_dict
              (query_rows (db_current_date (w_db w)) (db_karmafy_job (w_db w))))
   else Err (HTTPException 500 "Database query failed"),
   set_trace w (w_trace w ++ [EvDbOpen (DATABASE_URL cfg); EvDbExecute linkedin_query []]
                ++ (if db_executes (w_db w) then [] else [EvPrint LogDbQueryError])
                ++ [EvDbClose])).
Proof.
  intros Hacc.
  destruct w as [tr fs clk db tok snd xl xp mw]; simpl in *.
  unfold get_linkedin_job_postings, get_db_connection; unfold_monad; simpl.
  rewrite Hacc; simpl.
  destruct (db_executes db); simpl; unfold set_trace; simpl;
    now rewrite <- !app_assoc.
Qed.

(** The rows do not depend on [target_date]. *)
Lemma get_linkedin_job_postings_target_date_unused
  (cfg : config) (td1 td2 : option string) (w : world) :
  get_linkedin_job_postings cfg td1 w = get_linkedin_job_postings cfg td2 w.
Proof.
  destruct w as [tr fs clk db tok snd xl xp mw].
  unfold get_linkedin_job_postings, get_db_connection; unfold_monad; simpl.
  destruct (db_accepts db); reflexivity.
Qed.

(** ** The handler on an empty result *)

(** ** Token, send, export and template steps *)

Arguments fs_lookup : simpl never.

Lemma fs_lookup_written (fs : filesys) (p : string) (e : fs_entry) :
  fs_lookup ((p, e) :: fs) p = Some e.
Proof. unfold fs_lookup; simpl. now rewrite String.eqb_refl. Qed.

Lemma get_access_token_ok (cfg : config) (w : world) (tok : json) :
  token_ok (w_token_res w) tok ->
  get_access_token cfg w =
  (Ok tok, set_trace w (w_trace w ++ [EvTokenRequest (token_url cfg) (token_form cfg)])).
Proof.
  intros (Hok & Hb & Ht).
  destruct w as [tr fs clk db tk snd xl xp mw]; simpl in *.
  unfold get_access_token; unfold_monad; simpl.
  rewrite Hok; simpl.
  destruct (res_body tk) as [[| | | | |o]|]; simpl in Hb; try discriminate.
  injection Hb as <-. rewrite Ht. reflexivity.
Qed.

Lemma send_mail_attached (cfg : config) (to subj html : string)
  (cc : option (list string)) (p : string) (c : list Byte.byte) (w : world) (tok : json) :
  token_ok (w_token_res w) tok -> p <> "" ->
  fs_lookup (w_fs w) p = Some (FileRegular c) ->
  send_mail_via_graph cfg to subj html cc (Some p) w =
  (send_outcome (w_send_res w),
   set_trace w
     (w_trace w ++ [EvTokenRequest (token_url cfg) (token_form cfg)] ++ oversize_log c
      ++ [EvPrint (LogAttachmentAdded (basename p) (length c)
                                      (String.length (base64_encode c)));
          EvSendMail (graph_url cfg)
            (JObj [("message", JObj (base_message to subj html ++ cc_part cc
                                     ++ [("attachments", JArr [attachment_json p c])]));
                   ("saveToSentItems", JBool true)]) tok]
      ++ send_tail (w_send_res w))).
Proof.
  intros Htok Hp Hf.
  unfold send_mail_via_graph.
  rewrite (bind_ok _ _ _ _ _ (get_access_token_ok cfg w tok Htok)).
  destruct w as [tr fs clk db tk snd xl xp mw]; simpl in *.
  apply String.eqb_neq in Hp.
  unfold attach, read_file, fs_exists; unfold_monad; simpl.
  rewrite Hp; simpl. rewrite Hf; simpl. rewrite Hf; simpl.
  unfold oversize_log, send_outcome, send_tail.
  destruct (Z.ltb _ _); destruct cc as [[|x l]|]; simpl;
    destruct (res_ok snd); simpl; unfold set_trace; simpl;
    now rewrite <- !app_assoc.
Qed.

Lemma send_mail_file_missing (cfg : config) (to subj html : string)
  (cc : option (list string)) (p : string) (w : world) (tok : json) :
  token_ok (w_token_res w) tok -> p <> "" -> fs_lookup (w_fs w) p = None ->
  send_mail_via_graph cfg to subj html cc (Some p) w =
  (send_outcome (w_send_res w),
   set_trace w
     (w_trace w ++ [EvTokenRequest (token_url cfg) (token_form cfg);
                    EvPrint (LogAttachmentNotFound p);
                    EvSendMail (graph_url cfg)
                      (JObj [("message", JObj (base_message to subj html ++ cc_part cc));
                             ("saveToSentItems", JBool true)]) tok]
      ++ send_tail (w_send_res w))).
Proof.
  intros Htok Hp Hf.
  unfold send_mail_via_graph.
  rewrite (bind_ok _ _ _ _ _ (get_access_token_ok cfg w tok Htok)).
  destruct w as [tr fs clk db tk snd xl xp mw]; simpl in *.
  apply String.eqb_neq in Hp.
  unfold fs_exists; unfold_monad; simpl.
  rewrite Hp; simpl. rewrite Hf; simpl.
  unfold send_outcome, send_tail.
  destruct cc as [[|x l]|]; simpl;
    destruct (res_ok snd); simpl; unfold set_trace; simpl;
    now rewrite <- !app_assoc.
Qed.

Arguments export_path : simpl never.

Lemma export_jobs_to_excel_spec (cfg : config) (jobs : list dict) (w : world) :
  export_ok cfg jobs w = true ->
  export_jobs_to_excel cfg jobs w =
  (Ok (export_path cfg (w_clock w)),
   set_trace
     (set_fs w ((export_path cfg (w_clock w),
                 FileRegular (w_xlsx w (excel_rows_from 1 jobs))) :: w_fs w))
     (w_trace w ++ [EvFileWrite (export_path cfg (w_clock w));
                    EvPrint (LogExcelCreated (export_path cfg (w_clock w)))])).
Proof.
  unfold export_ok, export_path. intros H.
  repeat rewrite Bool.andb_true_iff in H. destruct H as (((Hd & Hp) & Hm) & Hr).
  destruct w as [tr fs clk db tk snd xl xp mw]; simpl in *.
  unfold export_jobs_to_excel, open_for_write, write_file; unfold_monad; simpl.
  rewrite Hd, Hp, Hm, Hr; simpl.
  unfold set_trace, set_fs; simpl. now rewrite <- app_assoc.
Qed.

Lemma build_template_spec (app : string) (jobs : list dict) (fp su : string) (w : world) :
  build_job_postings_email_template app jobs fp su w =
  (Ok (render_job_postings_email app jobs fp su (w_clock w)),
   set_trace w (w_trace w ++ [EvPrint (LogRowsGenerated (length jobs))])).
Proof. destruct w; reflexivity. Qed.

Lemma print_jobs_rows (l : list karmafy_job) (w : world) :
  print_jobs (map row_to_dict l) w =
  (Ok tt, set_trace w (w_trace w ++
     map (fun r => EvPrint (LogJob (opt_py (kj_company r)) (opt_py (kj_title r)))) l)).
Proof.
  revert w; induction l as [|r l IH]; intros w; simpl.
  - now rewrite app_nil_r, set_trace_same.
  - unfold py_subscript; unfold_monad; simpl.
    rewrite IH. unfold set_trace; simpl. now rewrite <- app_assoc.
Qed.

(** ** The HTML report *)

Lemma rows_from_occurs (jobs : list dict) (idx i : nat) (job : dict) :
  nth_error jobs i = Some job -> occurs_in (job_row_html (idx + i) job) (rows_from idx jobs).
Proof.
  revert idx i; induction jobs as [|j jobs IH]; intros idx i H.
  - destruct i; discriminate.
  - destruct i as [|i]; simpl in H.
    + injection H as ->. rewrite Nat.add_0_r.
      change (rows_from idx (job :: jobs)) with (job_row_html idx job ++ rows_from (S idx) jobs).
      exists "", (rows_from (S idx) jobs). reflexivity.
    + change (rows_from idx (j :: jobs)) with (job_row_html idx j ++ rows_from (S idx) jobs).
      apply occurs_in_app_r.
      replace (idx + S i) with (S idx + i) by lia. now apply IH.
Qed.

Lemma render_has_rows (app : string) (jobs : list dict) (fp su : string) (now : clock) :
  occurs_in (rows_from 1 jobs) (render_job_postings_email app jobs fp su now).
Proof.
  unfold render_job_postings_email. apply occurs_in_sconcat. simpl. tauto.
Qed.

Lemma render_reports_total (app : string) (jobs : list dict) (fp su : string) (now : clock) :
  occurs_in ("Total job postings: " ++ nat_str (length jobs))
            (render_job_postings_email app jobs fp su now).
Proof.
  unfold render_job_postings_email.
  match goal with |- occurs_in _ (sconcat ?l) =>
    rewrite <- (firstn_skipn 18 l) end.
  rewrite sconcat_app. apply occurs_in_app_r.
  cbn [skipn sconcat].
  match goal with |- occurs_in _ (?L ++ _ ++ ?R) =>
    rewrite (substring_split L (String.length L - 20));
    replace (substring (String.length L - 20) (String.length L - (String.length L - 20)) L)
      with "Total job postings: " by reflexivity;
    exists (substring 0 (String.length L - 20) L), R end.
  now rewrite !sapp_assoc.
Qed.

Lemma bind_get_world {B} (k : world -> M B) (w : world) :
  bind get_world k w = k w w.
Proof. reflexivity. Qed.

Lemma filter_is_send_jobs (l : list karmafy_job) :
  filter is_send
    (map (fun r => EvPrint (LogJob (opt_py (kj_company r)) (opt_py (kj_title r)))) l) = [].
Proof. induction l; simpl; auto. Qed.

Lemma export_path_nonempty (cfg : config) (now : clock) : export_path cfg now <> "".
Proof. unfold export_path. destruct (EXPORTS_DIR cfg); discriminate. Qed.

(** The query step of the handler when the statement runs. *)
Lemma query_step (cfg : config) (w : world) :
  db_accepts (w_db w) = true -> db_executes (w_db w) = true ->
  get_linkedin_job_postings cfg None w =
  (Ok (map row_to_dict (query_rows (db_current_date (w_db w)) (db_karmafy_job (w_db w)))),
   set_trace w (w_trace w ++ [EvDbOpen (DATABASE_URL cfg); EvDbExecute linkedin_query [];
                              EvDbClose])).
Proof.
  intros Ha He. rewrite get_linkedin_job_postings_spec by exact Ha. now rewrite He.
Qed.

Lemma bind_print {B} (m : log_msg) (k : unit -> M B) (w : world) :
  bind (print m) k w = k tt (set_trace w (w_trace w ++ [EvPrint m])).
Proof. reflexivity. Qed.

Lemma bind_ret {A B} (a : A) (k : A -> M B) (w : world) :
  bind (ret a) k w = k a w.
Proof. reflexivity. Qed.

(* ================================================================== *)
(** * The claims *)

(** ** C2: an empty result sends no mail *)

(** C2. When the query returns no rows, [get_linkedin_jobs] returns a
    success response with [jobs_count = 0] and [email_sent = false]; the
    only effects are opening, running and closing the database query, so
    no token is requested and no mail is sent. *)
Theorem get_linkedin_jobs_empty_no_mail (cfg : config) (w : world) :
  db_accepts (w_db w) = true -> db_executes (w_db w) = true ->
  query_rows (db_current_date (w_db w)) (db_karmafy_job (w_db w)) = [] ->
  exists resp,
    fst (get_linkedin_jobs cfg w) = Ok resp /\
    resp_success resp = true /\ resp_jobs_count resp = 0 /\
    resp_email_sent resp = false /\
    w_trace (snd (get_linkedin_jobs cfg w)) =
      (w_trace w ++ [EvDbOpen (DATABASE_URL cfg); EvDbExecute linkedin_query []; EvDbClose])%list /\
    filter is_graph_call (w_trace (snd (get_linkedin_jobs cfg w))) =
      filter is_graph_call (w_trace w).
Proof.
  intros Ha He Hq.
  unfold get_linkedin_jobs.
  rewrite (bind_ok _ _ _ _ _ (query_step cfg w Ha He)), Hq. simpl.
  exists no_jobs_response.
  repeat split; try reflexivity.
  rewrite filter_app. simpl. now rewrite app_nil_r.
Qed.

(** ** C3: a non-empty result sends one report *)

(** The last steps of the handler in [get_linkedin_jobs_one_report]. *)
Ltac finish_report Hsend :=
  unfold ret; cbn [fst snd set_trace w_trace];
  do 4 eexists; split; [reflexivity|];
  split; [rewrite <- !app_assoc; reflexivity|];
  split;
  [ rewrite !filter_app; unfold oversize_log, send_tail; rewrite Hsend;
    destruct (Z.ltb _ _); rewrite filter_is_send_jobs; reflexivity |];
  split; [ destruct (CC_EMAIL_RECIPIENTS _); reflexivity |];
  split; [ destruct (CC_EMAIL_RECIPIENTS _); reflexivity |];
  split; [ destruct (CC_EMAIL_RECIPIENTS _); reflexivity |];
  split; [ rewrite <- (length_map row_to_dict); apply render_reports_total |];
  repeat split.

(** C3 (as amended).  When the query returns [n > 0] rows, the Excel
    export can complete (the exports directory exists, the file may be
    written, and no job field holds a control character openpyxl refuses),
    the token request succeeds and Graph accepts the mail,
    [get_linkedin_jobs] makes exactly one sendMail call.  Its message has one [toRecipients] entry,
    the configured recipient; a [ccRecipients] entry listing the configured
    CC addresses when that list is non-empty and no [ccRecipients] key when
    it is empty; and an HTML body that reports ["Total job postings: n"].
    The response has [jobs_count = n] and [email_sent = true]. *)
Theorem get_linkedin_jobs_one_report (cfg : config) (w : world) (tok : json) :
  db_accepts (w_db w) = true -> db_executes (w_db w) = true ->
  query_rows (db_current_date (w_db w)) (db_karmafy_job (w_db w)) <> [] ->
  export_ok cfg (map row_to_dict (query_rows (db_current_date (w_db w))
                                    (db_karmafy_job (w_db w)))) w = true ->
  token_ok (w_token_res w) tok -> res_ok (w_send_res w) = true ->
  let n := length (query_rows (db_current_date (w_db w)) (db_karmafy_job (w_db w))) in
  exists resp evs msg html,
    fst (get_linkedin_jobs cfg w) = Ok resp /\
    w_trace (snd (get_linkedin_jobs cfg w)) = (w_trace w ++ evs)%list /\
    filter is_send evs =
      [EvSendMail (graph_url cfg)
         (JObj [("message", JObj msg); ("saveToSentItems", JBool true)]) tok] /\
    jlookup msg "toRecipients" = Some (JArr [recipient (TEST_EMAIL_RECIPIENT cfg)]) /\
    jlookup msg "ccRecipients" =
      match CC_EMAIL_RECIPIENTS cfg with
      | [] => None
      | l => Some (JArr (map recipient l))
      end /\
    jlookup msg "body" =
      Some (JObj [("contentType", JStr "HTML"); ("content", JStr html)]) /\
    occurs_in ("Total job postings: " ++ nat_str n) html /\
    resp_success resp = true /\ resp_jobs_count resp = n /\
    resp_email_sent resp = true /\
    resp_email_sent_to resp = Some (TEST_EMAIL_RECIPIENT cfg).
Proof.
  intros Ha He Hne Hx Htok Hsend n.
  unfold n; clear n.
  destruct (query_rows (db_current_date (w_db w)) (db_karmafy_job (w_db w)))
    as [|r rs] eqn:Hq; [congruence|].
  unfold get_linkedin_jobs.
  rewrite (bind_ok _ _ _ _ _ (query_step cfg w Ha He)), Hq.
  cbn beta iota delta [map].
  erewrite bind_ok; [|apply export_jobs_to_excel_spec; exact Hx].
  rewrite bind_get_world.
  rewrite (bind_ok _ _ _ _ _ (build_template_spec _ _ _ _ _)).
  erewrite bind_ok.
  2:{ rewrite send_mail_attached with (tok := tok) (c := w_xlsx w (excel_rows_from 1 (map row_to_dict (r :: rs)))).
      - unfold send_outcome. cbn [w_send_res set_trace set_fs]. rewrite Hsend. reflexivity.
      - exact Htok.
      - apply export_path_nonempty.
      - apply fs_lookup_written. }
  cbn [set_trace set_fs w_trace w_fs w_clock w_db w_token_res w_send_res w_xlsx].
  rewrite !bind_print.
  change (row_to_dict r :: map row_to_dict rs) with (map row_to_dict (r :: rs)).
  rewrite firstn_map.
  rewrite (bind_ok _ _ _ _ _ (print_jobs_rows _ _)).
  rewrite length_map.
  destruct (Nat.ltb 5 (length (r :: rs))).
  - rewrite bind_print. finish_report Hsend.
  - rewrite bind_ret. finish_report Hsend.
Qed.

(** ** C8: the connection is closed on every exit *)

(** C8. Once [get_db_connection] has opened the connection,
    [get_linkedin_job_postings] ends with [conn.close()]: the new effects
    are the open, then effects without a close, then the close, also when
    the statement fails and the call raises the query error. *)
Theorem get_linkedin_job_postings_closes (cfg : config) (td : option string) (w : world) :
  db_accepts (w_db w) = true ->
  exists mid,
    w_trace (snd (get_linkedin_job_postings cfg td w)) =
      (w_trace w ++ EvDbOpen (DATABASE_URL cfg) :: mid ++ [EvDbClose])%list /\
    ~ In EvDbClose mid /\
    (db_executes (w_db w) = false ->
     fst (get_linkedin_job_postings cfg td w) =
       Err (HTTPException 500 "Database query failed")).
Proof.
  intros Ha. rewrite get_linkedin_job_postings_spec by exact Ha.
  exists (EvDbExecute linkedin_query []
          :: (if db_executes (w_db w) then [] else [EvPrint LogDbQueryError])).
  cbn [fst snd set_trace w_trace].
  destruct (db_executes (w_db w)); simpl; repeat split; try discriminate.
  all: intros H; intuition discriminate.
Qed.

(** ** C9: missing required configuration stops the import *)

(** C9. If one of AZURE_TENANT_ID, AZURE_CLIENT_ID, AZURE_CLIENT_SECRET or
    DATABASE_URL is unset or empty, importing the module raises a
    [ValueError] and performs no effect: the exports directory, the FastAPI
    app and its routes are never created. *)
Theorem module_load_missing_config (proc dotenv : environ) (fs : filesys)
  (may_write : string -> bool) (module_dir : string) :
  required_config_present proc dotenv = false ->
  exists msg, module_load proc dotenv fs may_write module_dir = (Err (ValueError msg), []).
Proof.
  unfold required_config_present, module_load. simpl.
  destruct (opt_truthy (getenv proc dotenv "AZURE_TENANT_ID"));
    destruct (opt_truthy (getenv proc dotenv "AZURE_CLIENT_ID"));
    destruct (opt_truthy (getenv proc dotenv "AZURE_CLIENT_SECRET"));
    destruct (opt_truthy (getenv proc dotenv "DATABASE_URL"));
    simpl; intros H; try discriminate; eexists; reflexivity.
Qed.

(** ** C7: the recipient is a constant *)

(** C7 (as amended).  Whatever the environment, a successful import sets
    [TEST_EMAIL_RECIPIENT] to the literal "bhanutejathouti@gmail.com"; the
    sender address and the CC list, unlike it, come from the environment
    (SENDER_EMAIL with its default, CC_EMAIL_RECIPIENTS). *)
Theorem module_load_recipient_fixed (proc dotenv : environ) (fs : filesys)
  (may_write : string -> bool) (module_dir : string) (cfg : config) (evs : list event) :
  module_load proc dotenv fs may_write module_dir = (Ok cfg, evs) ->
  TEST_EMAIL_RECIPIENT cfg = "bhanutejathouti@gmail.com" /\
  SENDER_EMAIL cfg = getenv_default proc dotenv "SENDER_EMAIL" "support@applywizz.com" /\
  CC_EMAIL_RECIPIENTS cfg = parse_cc (getenv_default proc dotenv "CC_EMAIL_RECIPIENTS" "").
Proof.
  unfold module_load. cbv zeta.
  destruct (negb (forallb opt_truthy _)); [discriminate|].
  destruct (negb (opt_truthy _)); [discriminate|].
  destruct (mkdir_exist_ok _ _ _ _); [discriminate|].
  intros H. injection H as <- _. repeat split.
Qed.

(** ** C6: when the token request fails *)

(** C6 (as amended).  A token response that is not ok raises the
    "Failed to get access token" error.  An ok response whose body decodes
    to a dict raises the "No access token" error when its [access_token] is
    absent or falsy (null, "", 0, false, [] or {}) and otherwise returns
    that value.  An ok response whose body is not JSON raises
    [JSONDecodeError] from [res.json()], not the authentication error. *)
Theorem get_access_token_outcome (cfg : config) (w : world) :
  (res_ok (w_token_res w) = false ->
   fst (get_access_token cfg w) =
     Err (HTTPException 500 "Failed to get access token from Azure AD")) /\
  (forall o, res_ok (w_token_res w) = true ->
   res_body (w_token_res w) = BodyJson (JObj o) ->
   fst (get_access_token cfg w) =
     if json_truthy (jget o "access_token") then Ok (jget o "access_token")
     else Err (HTTPException 500 "No access token received from Azure AD")) /\
  (forall t, res_ok (w_token_res w) = true -> res_body (w_token_res w) = BodyText t ->
   fst (get_access_token cfg w) = Err JSONDecodeError).
Proof.
  destruct w as [tr fs clk db tk snd xl xp mw]; simpl.
  unfold get_access_token; unfold_monad; simpl.
  repeat split.
  - intros H. now rewrite H.
  - intros o H Hb. rewrite H, Hb. simpl.
    now destruct (json_truthy (jget o "access_token")).
  - intros t H Hb. now rewrite H, Hb.
Qed.

(** ** C5: an oversized attachment is still sent *)

(** C5. If the attachment file is larger than 4 MB, [send_mail_via_graph]
    prints the size warning and still attaches the base64 of the whole file
    with the spreadsheet MIME type and posts the mail; the outcome depends
    only on Graph's answer to the send.  (The token request comes first and
    is assumed to succeed.) *)
Theorem send_mail_oversize_attachment (cfg : config) (to subj html : string)
  (cc : option (list string)) (p : string) (c : list Byte.byte) (w : world) (tok : json) :
  token_ok (w_token_res w) tok -> p <> "" ->
  fs_lookup (w_fs w) p = Some (FileRegular c) ->
  (4 * 1024 * 1024 < Z.of_nat (length c))%Z ->
  exists evs msg,
    send_mail_via_graph cfg to subj html cc (Some p) w =
      (send_outcome (w_send_res w), set_trace w (w_trace w ++ evs)) /\
    In (EvPrint (LogAttachmentOversize (length c))) evs /\
    In (EvSendMail (graph_url cfg)
          (JObj [("message", JObj msg); ("saveToSentItems", JBool true)]) tok) evs /\
    jlookup msg "attachments" =
      Some (JArr [JObj [("@odata.type", JStr "#microsoft.graph.fileAttachment");
                        ("name", JStr (basename p));
                        ("contentType", JStr xlsx_mime);
                        ("contentBytes", JStr (base64_encode c))]]).
Proof.
  intros Htok Hp Hf Hbig.
  rewrite (send_mail_attached cfg to subj html cc p c w tok Htok Hp Hf).
  unfold oversize_log. apply Z.ltb_lt in Hbig. rewrite Hbig.
  do 2 eexists. split; [reflexivity|].
  split; [simpl; tauto|].
  split; [simpl; tauto|].
  destruct cc as [[|x l]|]; reflexivity.
Qed.

(** ** C10: a missing attachment file does not stop the send *)

(** C10. If [attachment_path] names a file that does not exist,
    [send_mail_via_graph] prints the "not found" warning, posts a message
    without an [attachments] key, and its outcome depends only on Graph's
    answer to the send.  (The token request comes first and is assumed to
    succeed.) *)
Theorem send_mail_missing_attachment (cfg : config) (to subj html : string)
  (cc : option (list string)) (p : string) (w : world) (tok : json) :
  token_ok (w_token_res w) tok -> p <> "" -> fs_exists (w_fs w) p = false ->
  exists evs msg,
    send_mail_via_graph cfg to subj html cc (Some p) w =
      (send_outcome (w_send_res w), set_trace w (w_trace w ++ evs)) /\
    In (EvPrint (LogAttachmentNotFound p)) evs /\
    In (EvSendMail (graph_url cfg)
          (JObj [("message", JObj msg); ("saveToSentItems", JBool true)]) tok) evs /\
    jlookup msg "attachments" = None.
Proof.
  intros Htok Hp Hex.
  assert (Hf : fs_lookup (w_fs w) p = None).
  { unfold fs_exists in Hex. now destruct (fs_lookup (w_fs w) p). }
  rewrite (send_mail_file_missing cfg to subj html cc p w tok Htok Hp Hf).
  do 2 eexists. split; [reflexivity|].
  split; [simpl; tauto|].
  split; [simpl; tauto|].
  destruct cc as [[|x l]|]; reflexivity.
Qed.

(** ** C4: absent fields get placeholders *)

(** C4. For any job record of [jobs_data] and any of the seven fields the
    row shows, if the field is missing from the dict or is [None], the
    value rendered for it is its placeholder ("N/A" or "#"), and
    [build_job_postings_email_template] returns (raises nothing) an HTML
    string that contains that record's row. *)
Theorem job_postings_template_placeholders (app_name : string) (jobs_data : list dict)
  (excel_filepath support_url : string) (w : world) (i : nat) (job : dict) (k d : string) :
  nth_error jobs_data i = Some job -> In (k, d) row_placeholders ->
  (dict_lookup job k = None \/ dict_lookup job k = Some PNone) ->
  job_field job k d = PStr d /\
  exists html,
    fst (build_job_postings_email_template app_name jobs_data excel_filepath support_url w)
      = Ok html /\
    occurs_in (job_row_html (S i) job) html.
Proof.
  intros Hnth Hin Habs. split.
  - unfold job_field, dict_get, py_or.
    destruct Habs as [-> | ->]; simpl in Hin;
      repeat destruct Hin as [Hin | Hin]; try contradiction;
      injection Hin as <- <-; reflexivity.
  - rewrite build_template_spec. eexists. split; [reflexivity|].
    eapply occurs_in_trans; [| apply render_has_rows].
    apply (rows_from_occurs jobs_data 1 i job Hnth).
Qed.

(** ** C1: the target date does not reach the query *)

(** C1 (failing input).  [get_linkedin_job_postings] computes [target_date]
    and never uses it: the statement is the constant [linkedin_query], run
    with no bind values, and it selects the rows of the server's
    CURRENT_DATE.  The table holds three qualifying rows of 2024-10-04; asked
    for 2024-10-04 on the next day, the call returns none of them. *)
Lemma get_linkedin_job_postings_ignores_target_date :
  length (query_rows day_example table_example) = 3 /\
  fst (get_linkedin_job_postings cfg_example (Some "2024-10-04") world_next_day) = Ok [] /\
  In (EvDbExecute linkedin_query [])
     (w_trace (snd (get_linkedin_job_postings cfg_example (Some "2024-10-04") world_next_day))).
Proof.
  split; [vm_compute; reflexivity|].
  split; vm_compute; auto.
Qed.

(** ** Witnesses *)

(** C2 at a database whose table is empty. *)
Lemma get_linkedin_jobs_empty_no_mail_witness :
  db_accepts (w_db world_empty) = true /\ db_executes (w_db world_empty) = true /\
  query_rows (db_current_date (w_db world_empty)) (db_karmafy_job (w_db world_empty)) = [] /\
  exists resp,
    fst (get_linkedin_jobs cfg_example world_empty) = Ok resp /\
    resp_success resp = true /\ resp_jobs_count resp = 0 /\
    resp_email_sent resp = false /\
    w_trace (snd (get_linkedin_jobs cfg_example world_empty)) =
      (w_trace world_empty ++ [EvDbOpen (DATABASE_URL cfg_example);
                               EvDbExecute linkedin_query []; EvDbClose])%list /\
    filter is_graph_call (w_trace (snd (get_linkedin_jobs cfg_example world_empty))) =
      filter is_graph_call (w_trace world_empty).
Proof.
  split; [reflexivity|]. split; [reflexivity|]. split; [reflexivity|].
  apply get_linkedin_jobs_empty_no_mail; reflexivity.
Defined.

(** C3 at the three-row table of 2024-10-04. *)
Lemma get_linkedin_jobs_one_report_witness :
  db_accepts (w_db world_example) = true /\ db_executes (w_db world_example) = true /\
  query_rows (db_current_date (w_db world_example)) (db_karmafy_job (w_db world_example)) <> [] /\
  export_ok cfg_example (map row_to_dict (query_rows (db_current_date (w_db world_example))
                           (db_karmafy_job (w_db world_example)))) world_example = true /\
  token_ok (w_token_res world_example) (JStr "eyJ0eXAiOiJKV1Qi") /\
  res_ok (w_send_res world_example) = true /\
  let n := length (query_rows (db_current_date (w_db world_example))
                              (db_karmafy_job (w_db world_example))) in
  exists resp evs msg html,
    fst (get_linkedin_jobs cfg_example world_example) = Ok resp /\
    w_trace (snd (get_linkedin_jobs cfg_example world_example)) = (w_trace world_example ++ evs)%list /\
    filter is_send evs =
      [EvSendMail (graph_url cfg_example)
         (JObj [("message", JObj msg); ("saveToSentItems", JBool true)])
         (JStr "eyJ0eXAiOiJKV1Qi")] /\
    jlookup msg "toRecipients" = Some (JArr [recipient (TEST_EMAIL_RECIPIENT cfg_example)]) /\
    jlookup msg "ccRecipients" =
      match CC_EMAIL_RECIPIENTS cfg_example with
      | [] => None
      | l => Some (JArr (map recipient l))
      end /\
    jlookup msg "body" =
      Some (JObj [("contentType", JStr "HTML"); ("content", JStr html)]) /\
    occurs_in ("Total job postings: " ++ nat_str n) html /\
    resp_success resp = true /\ resp_jobs_count resp = n /\
    resp_email_sent resp = true /\
    resp_email_sent_to resp = Some (TEST_EMAIL_RECIPIENT cfg_example).
Proof.
  split; [reflexivity|]. split; [reflexivity|].
  split; [vm_compute; discriminate|].
  split; [vm_compute; reflexivity|].
  split; [split; [reflexivity | split; reflexivity]|].
  split; [reflexivity|].
  apply get_linkedin_jobs_one_report with (tok := JStr "eyJ0eXAiOiJKV1Qi").
  - reflexivity.
  - reflexivity.
  - vm_compute; discriminate.
  - vm_compute; reflexivity.
  - split; [reflexivity | split; reflexivity].
  - reflexivity.
Defined.

(** C4 at a one-job list whose job has no [company] key. *)
Lemma job_postings_template_placeholders_witness :
  nth_error [job_missing_company] 0 = Some job_missing_company /\
  In ("company", "N/A") row_placeholders /\
  (dict_lookup job_missing_company "company" = None \/
   dict_lookup job_missing_company "company" = Some PNone) /\
  job_field job_missing_company "company" "N/A" = PStr "N/A" /\
  exists html,
    fst (build_job_postings_email_template "Karmafy" [job_missing_company]
           "/srv/karmafy/exports/linkedin_jobs_2024-10-04_090000.xlsx"
           default_support_url world_example) = Ok html /\
    occurs_in (job_row_html 1 job_missing_company) html.
Proof.
  split; [reflexivity|]. split; [left; reflexivity|]. split; [left; reflexivity|].
  apply (job_postings_template_placeholders "Karmafy" [job_missing_company]
           "/srv/karmafy/exports/linkedin_jobs_2024-10-04_090000.xlsx"
           default_support_url world_example 0 job_missing_company "company" "N/A").
  - reflexivity.
  - left; reflexivity.
  - left; reflexivity.
Defined.

(** C5 at a file of 4 MB and one byte. *)
Lemma send_mail_oversize_attachment_witness :
  token_ok (w_token_res world_big_file) (JStr "eyJ0eXAiOiJKV1Qi") /\
  "/srv/karmafy/exports/report.xlsx" <> "" /\
  fs_lookup (w_fs world_big_file) "/srv/karmafy/exports/report.xlsx" =
    Some (FileRegular big_content) /\
  (4 * 1024 * 1024 < Z.of_nat (length big_content))%Z /\
  exists evs msg,
    send_mail_via_graph cfg_example "bhanutejathouti@gmail.com" "LinkedIn report"
      "<p>report</p>" None (Some "/srv/karmafy/exports/report.xlsx") world_big_file =
      (send_outcome (w_send_res world_big_file),
       set_trace world_big_file (w_trace world_big_file ++ evs)) /\
    In (EvPrint (LogAttachmentOversize (length big_content))) evs /\
    In (EvSendMail (graph_url cfg_example)
          (JObj [("message", JObj msg); ("saveToSentItems", JBool true)])
          (JStr "eyJ0eXAiOiJKV1Qi")) evs /\
    jlookup msg "attachments" =
      Some (JArr [JObj [("@odata.type", JStr "#microsoft.graph.fileAttachment");
                        ("name", JStr (basename "/srv/karmafy/exports/report.xlsx"));
                        ("contentType", JStr xlsx_mime);
                        ("contentBytes", JStr (base64_encode big_content))]]).
Proof.
  assert (Hsize : (4 * 1024 * 1024 < Z.of_nat (length big_content))%Z).
  { unfold big_content. rewrite repeat_length, Z2Nat.id by lia. lia. }
  split; [split; [reflexivity | split; reflexivity]|].
  split; [discriminate|]. split; [reflexivity|]. split; [exact Hsize|].
  apply send_mail_oversize_attachment.
  - split; [reflexivity | split; reflexivity].
  - discriminate.
  - reflexivity.
  - exact Hsize.
Defined.

(** C7 at an environment with only the four required values. *)
Lemma module_load_recipient_fixed_witness :
  module_load env_required [] host_fs (fun _ => true) "/srv/karmafy" =
    (Ok cfg_example,
     snd (module_load env_required [] host_fs (fun _ => true) "/srv/karmafy")) /\
  TEST_EMAIL_RECIPIENT cfg_example = "bhanutejathouti@gmail.com" /\
  SENDER_EMAIL cfg_example =
    getenv_default env_required [] "SENDER_EMAIL" "support@applywizz.com" /\
  CC_EMAIL_RECIPIENTS cfg_example =
    parse_cc (getenv_default env_required [] "CC_EMAIL_RECIPIENTS" "").
Proof.
  split; [vm_compute; reflexivity|].
  apply (module_load_recipient_fixed env_required [] host_fs (fun _ => true)
           "/srv/karmafy" cfg_example
           (snd (module_load env_required [] host_fs (fun _ => true) "/srv/karmafy"))).
  vm_compute; reflexivity.
Defined.

(** C8 at a database that accepts the connection. *)
Lemma get_linkedin_job_postings_closes_witness :
  db_accepts (w_db world_example) = true /\
  exists mid,
    w_trace (snd (get_linkedin_job_postings cfg_example None world_example)) =
      (w_trace world_example ++ EvDbOpen (DATABASE_URL cfg_example) :: mid ++ [EvDbClose])%list /\
    ~ In EvDbClose mid /\
    (db_executes (w_db world_example) = false ->
     fst (get_linkedin_job_postings cfg_example None world_example) =
       Err (HTTPException 500 "Database query failed")).
Proof.
  split; [reflexivity|].
  apply get_linkedin_job_postings_closes; reflexivity.
Defined.

(** C9 at an empty environment and no .env file. *)
Lemma module_load_missing_config_witness :
  required_config_present [] [] = false /\
  exists msg, module_load [] [] host_fs (fun _ => true) "/srv/karmafy" = (Err (ValueError msg), []).
Proof.
  split; [reflexivity|].
  apply module_load_missing_config; reflexivity.
Defined.

(** C10 at a path that names no file. *)
Lemma send_mail_missing_attachment_witness :
  token_ok (w_token_res world_example) (JStr "eyJ0eXAiOiJKV1Qi") /\
  "/srv/karmafy/exports/missing.xlsx" <> "" /\
  fs_exists (w_fs world_example) "/srv/karmafy/exports/missing.xlsx" = false /\
  exists evs msg,
    send_mail_via_graph cfg_example "bhanutejathouti@gmail.com" "LinkedIn report"
      "<p>report</p>" None (Some "/srv/karmafy/exports/missing.xlsx") world_example =
      (send_outcome (w_send_res world_example),
       set_trace world_example (w_trace world_example ++ evs)) /\
    In (EvPrint (LogAttachmentNotFound "/srv/karmafy/exports/missing.xlsx")) evs /\
    In (EvSendMail (graph_url cfg_example)
          (JObj [("message", JObj msg); ("saveToSentItems", JBool true)])
          (JStr "eyJ0eXAiOiJKV1Qi")) evs /\
    jlookup msg "attachments" = None.
Proof.
  split; [split; [reflexivity | split; reflexivity]|].
  split; [discriminate|]. split; [reflexivity|].
  apply send_mail_missing_attachment.
  - split; [reflexivity | split; reflexivity].
  - discriminate.
  - reflexivity.
Defined.

(** ** Counterexamples *)

(** C3 as first stated: with CC_EMAIL_RECIPIENTS empty the one message sent
    has no [ccRecipients] key at all, not an empty CC list. *)
Lemma get_linkedin_jobs_empty_cc_no_key :
  CC_EMAIL_RECIPIENTS cfg_example = [] /\
  match sent_messages (w_trace (snd (get_linkedin_jobs cfg_example world_example))) with
  | [m] => jlookup m "ccRecipients" = None
  | _ => False
  end.
Proof.
  split; [reflexivity|].
  vm_compute. reflexivity.
Qed.

(** C6 as first stated: an ok token response whose body is an HTML page
    lacks an [access_token], yet [get_access_token] raises the JSON decoding
    error of [res.json()], not the authentication error. *)
Lemma get_access_token_html_body :
  res_ok (w_token_res world_html_token) = true /\
  body_token (res_body (w_token_res world_html_token)) = None /\
  fst (get_access_token cfg_example world_html_token) = Err JSONDecodeError.
Proof.
  split; [reflexivity|]. split; [reflexivity|].
  vm_compute. reflexivity.
Qed.

(** C7 as first stated: two environments that name different recipients,
    under TEST_EMAIL_RECIPIENT or RECIPIENT_EMAIL, load the same recipient. *)
Lemma module_load_recipient_ignores_env :
  match fst (module_load (env_with_recipient "alice@example.com") [] host_fs (fun _ => true)
               "/srv/karmafy"),
        fst (module_load (env_with_recipient "bob@example.com") [] host_fs (fun _ => true)
               "/srv/karmafy") with
  | Ok ca, Ok cb => TEST_EMAIL_RECIPIENT ca = TEST_EMAIL_RECIPIENT cb
  | _, _ => False
  end.
Proof.
  vm_compute. reflexivity.
Qed.

(* ================================================================== *)
(** * Further properties of the code *)

(** ** Lemmas *)

Lemma bind_err {A B} (m : M A) (k : A -> M B) (w : world) (e : exn) (w' : world) :
  m w = (Err e, w') -> bind m k w = (Err e, w').
Proof. unfold bind. intros ->. reflexivity. Qed.

Lemma insert_row_perm (r : karmafy_job) (l : list karmafy_job) :
  Permutation (insert_row r l) (r :: l).
Proof.
  induction l as [|r' l IH]; simpl; [reflexivity|].
  destruct (row_le r r'); [reflexivity|].
  rewrite IH. apply perm_swap.
Qed.

Lemma sort_rows_perm (l : list karmafy_job) : Permutation (sort_rows l) l.
Proof.
  induction l as [|r l IH]; simpl; [reflexivity|].
  rewrite insert_row_perm. now constructor.
Qed.

Lemma in_distinct_titles (p x : string) (rows : list karmafy_job) :
  In x (distinct_titles p rows) <->
  exists r, In r rows /\ kj_posted_by_profile r = Some p /\ kj_title r = Some x.
Proof.
  unfold distinct_titles. rewrite nodup_In, in_flat_map. split.
  - intros (r & Hr & Hx). exists r. split; [exact Hr|].
    destruct (kj_posted_by_profile r) as [p'|], (kj_title r) as [t|];
      try contradiction.
    destruct (String.eqb_spec p' p); [|contradiction].
    destruct Hx as [<- | []]. now subst.
  - intros (r & Hr & Hp & Ht). exists r. split; [exact Hr|].
    rewrite Hp, Ht, String.eqb_refl. now left.
Qed.

Lemma in_query_rows (day : Z) (t : list karmafy_job) (r : karmafy_job) :
  In r (query_rows day t) <->
  In r (todays_rows day t) /\ high_volume (todays_rows day t) r = true.
Proof.
  unfold query_rows. split.
  - intros H. apply (Permutation_in _ (sort_rows_perm _)) in H.
    now apply filter_In in H.
  - intros H. apply (Permutation_in _ (Permutation_sym (sort_rows_perm _))).
    now apply filter_In.
Qed.

Lemma query_rows_high_volume_aux (day : Z) (t : list karmafy_job)
  (r : karmafy_job) (p : string) :
  In r (query_rows day t) -> kj_posted_by_profile r = Some p ->
  2 < length (distinct_titles p (query_rows day t)).
Proof.
  intros Hr Hp.
  apply in_query_rows in Hr as [_ Hhv].
  unfold high_volume in Hhv. rewrite Hp in Hhv. apply Nat.ltb_lt in Hhv.
  eapply Nat.lt_le_trans; [exact Hhv|].
  apply NoDup_incl_length; [apply NoDup_nodup|].
  intros x Hx. apply in_distinct_titles in Hx as (r' & Hr' & Hp' & Ht').
  apply in_distinct_titles. exists r'. repeat split; try assumption.
  apply in_query_rows. split; [exact Hr'|].
  unfold high_volume. rewrite Hp'. now apply Nat.ltb_lt.
Qed.

Lemma str_split_nonempty (sep : ascii) (s : string) : str_split sep s <> [].
Proof.
  induction s as [|c s IH]; simpl; [discriminate|].
  destruct (str_split sep s); [contradiction|].
  destruct (Ascii.eqb c sep); discriminate.
Qed.

Lemma str_split_app (sep : ascii) (s1 s2 : string) :
  str_split sep (s1 ++ String sep s2) = (str_split sep s1 ++ str_split sep s2)%list.
Proof.
  induction s1 as [|c s1 IH]; simpl.
  - rewrite Ascii.eqb_refl.
    destruct (str_split sep s2) eqn:E; [now apply str_split_nonempty in E|]. reflexivity.
  - rewrite IH.
    destruct (str_split sep s1) as [|f fs] eqn:E; [now apply str_split_nonempty in E|].
    simpl. destruct (Ascii.eqb c sep); reflexivity.
Qed.

Lemma str_split_no_sep (sep : ascii) (s f : string) :
  In f (str_split sep s) -> has_char sep f = false.
Proof.
  revert f; induction s as [|c s IH]; intros f Hf; simpl in Hf.
  - destruct Hf as [<- | []]. reflexivity.
  - destruct (str_split sep s) as [|g gs] eqn:E; [contradiction|].
    destruct (Ascii.eqb_spec c sep).
    + destruct Hf as [<- | Hf]; [reflexivity|]. now apply IH.
    + destruct Hf as [<- | Hf].
      * unfold has_char; simpl. apply Bool.orb_false_iff. split.
        -- apply Ascii.eqb_neq. congruence.
        -- apply IH. now left.
      * apply IH. now right.
Qed.

Lemma str_split_without (sep : ascii) (s : string) :
  has_char sep s = false -> str_split sep s = [s].
Proof.
  induction s as [|c s IH]; intros H; simpl; [reflexivity|].
  unfold has_char in H; simpl in H. apply Bool.orb_false_iff in H as [Hc Hs].
  rewrite (IH Hs). rewrite Ascii.eqb_sym, Hc. reflexivity.
Qed.

Lemma has_char_app (c : ascii) (a b : string) :
  has_char c (a ++ b) = has_char c a || has_char c b.
Proof.
  unfold has_char. induction a as [|x a IH]; simpl; [reflexivity|].
  rewrite IH. now rewrite Bool.orb_assoc.
Qed.

Lemma rev_str_acc (s acc : string) : rev_str s acc = rev_str s "" ++ acc.
Proof.
  revert acc; induction s as [|c s IH]; intros acc; simpl; [reflexivity|].
  rewrite (IH (String c acc)), (IH (String c "")), sapp_assoc. reflexivity.
Qed.

Lemma rev_str_app (a b : string) : rev_str (a ++ b) "" = rev_str b "" ++ rev_str a "".
Proof.
  induction a as [|c a IH]; simpl.
  - now rewrite sapp_nil_r.
  - rewrite (rev_str_acc (a ++ b)), IH, (rev_str_acc a (String c "")).
    now rewrite sapp_assoc.
Qed.

Lemma rev_str_involutive (s : string) : rev_str (rev_str s "") "" = s.
Proof.
  induction s as [|c s IH]; simpl; [reflexivity|].
  rewrite (rev_str_acc s (String c "")), rev_str_app. simpl. now rewrite IH.
Qed.

Lemma has_char_rev (c : ascii) (s : string) : has_char c (rev_str s "") = has_char c s.
Proof.
  induction s as [|x s IH]; simpl; [reflexivity|].
  rewrite (rev_str_acc s (String x "")), has_char_app, IH. unfold has_char; simpl.
  now rewrite Bool.orb_false_r, Bool.orb_comm.
Qed.

Lemma str_length_app (a b : string) :
  String.length (a ++ b) = String.length a + String.length b.
Proof. induction a as [|c a IH]; simpl; [reflexivity | now rewrite IH]. Qed.

Lemma rev_str_length (s : string) : String.length (rev_str s "") = String.length s.
Proof.
  induction s as [|c s IH]; simpl; [reflexivity|].
  rewrite (rev_str_acc s (String c "")), str_length_app, IH. simpl. lia.
Qed.

Lemma drop_prefix_some (p s r : string) : drop_prefix p s = Some r -> s = p ++ r.
Proof.
  revert s; induction p as [|c p IH]; intros s H; simpl in H.
  - now injection H as <-.
  - destruct s as [|d s]; [discriminate|].
    destruct (Ascii.eqb c d) eqn:E; [|discriminate].
    apply Ascii.eqb_eq in E as <-. simpl. f_equal. now apply IH.
Qed.

Lemma drop_prefix_app (p s r z : string) :
  drop_prefix p s = Some r -> drop_prefix p (s ++ z) = Some (r ++ z).
Proof.
  revert s; induction p as [|c p IH]; intros s H; simpl in H |- *.
  - now injection H as <-.
  - destruct s as [|d s]; [discriminate|]. simpl.
    destruct (Ascii.eqb c d); [now apply IH | discriminate].
Qed.

Lemma drop_any_some (pats : list string) (s r : string) :
  drop_any pats s = Some r -> exists p, In p pats /\ s = p ++ r.
Proof.
  induction pats as [|p ps IH]; simpl; [discriminate|].
  destruct (drop_prefix p s) as [r'|] eqn:E.
  - intros [= <-]. exists p. split; [now left | now apply drop_prefix_some].
  - intros H. destruct (IH H) as (p' & Hin & Hs). exists p'. split; [now right | exact Hs].
Qed.

(** A string that starts with none of [pats] has no prefix that does. *)
Lemma drop_any_prefix (pats : list string) (y z : string) :
  drop_any pats (y ++ z) = None -> drop_any pats y = None.
Proof.
  induction pats as [|p ps IH]; simpl; [reflexivity|].
  destruct (drop_prefix p y) as [r|] eqn:E.
  - now rewrite (drop_prefix_app _ _ _ z E).
  - destruct (drop_prefix p (y ++ z)); [discriminate | exact IH].
Qed.

Lemma lstrip_by_suffix (pats : list string) (n : nat) (s : string) :
  exists u, s = u ++ lstrip_by pats n s.
Proof.
  revert s; induction n as [|n IH]; intros s; simpl; [now exists ""|].
  destruct (drop_any pats s) as [r|] eqn:E; [|now exists ""].
  destruct (drop_any_some _ _ _ E) as (p & _ & ->).
  destruct (IH r) as (u & Hu). exists (p ++ u). now rewrite sapp_assoc, <- Hu.
Qed.

Lemma lstrip_by_clean (pats : list string) (n : nat) (s : string) :
  (forall p, In p pats -> p <> "") -> String.length s <= n ->
  drop_any pats (lstrip_by pats n s) = None.
Proof.
  intros Hne. revert s; induction n as [|n IH]; intros s Hl; simpl.
  - destruct s; [|simpl in Hl; lia].
    destruct (drop_any pats "") as [r|] eqn:E; [|reflexivity].
    destruct (drop_any_some _ _ _ E) as (p & Hin & Hp).
    destruct p; [now destruct (Hne _ Hin) | discriminate].
  - destruct (drop_any pats s) as [r|] eqn:E; [|exact E].
    apply IH. destruct (drop_any_some _ _ _ E) as (p & Hin & ->).
    rewrite str_length_app in Hl.
    destruct p; [now destruct (Hne _ Hin)|]. simpl in Hl. lia.
Qed.

Lemma lstrip_by_id (pats : list string) (n : nat) (s : string) :
  drop_any pats s = None -> lstrip_by pats n s = s.
Proof. destruct n; simpl; [reflexivity|]. now intros ->. Qed.

Lemma utf8_spaces_nonempty (p : string) : In p utf8_spaces -> p <> "".
Proof.
  assert (H : forallb (fun p => negb (String.eqb p "")) utf8_spaces = true)
    by (vm_compute; reflexivity).
  intros Hin. rewrite forallb_forall in H. apply H, Bool.negb_true_iff in Hin.
  now apply String.eqb_neq.
Qed.

Lemma utf8_spaces_rev_nonempty (p : string) : In p utf8_spaces_rev -> p <> "".
Proof.
  unfold utf8_spaces_rev. intros (q & <- & Hq)%in_map_iff Habs.
  apply (f_equal String.length) in Habs. rewrite rev_str_length in Habs.
  destruct q; [now destruct (utf8_spaces_nonempty _ Hq) | discriminate].
Qed.

(** The parts [strip] keeps: [strip s] is a prefix of [lstrip s], which is a
    suffix of [s]. *)
Lemma strip_parts (s : string) :
  exists u v, s = u ++ strip s ++ v /\ lstrip s = strip s ++ v.
Proof.
  unfold strip, lstrip.
  set (t := lstrip_by utf8_spaces (String.length s) s).
  destruct (lstrip_by_suffix utf8_spaces (String.length s) s) as (u & Hu).
  fold t in Hu.
  set (c := lstrip_by utf8_spaces_rev (String.length t) (rev_str t "")).
  destruct (lstrip_by_suffix utf8_spaces_rev (String.length t) (rev_str t "")) as (v & Hv).
  fold c in Hv.
  assert (Ht : t = rev_str c "" ++ rev_str v "").
  { rewrite <- (rev_str_involutive t), Hv. apply rev_str_app. }
  exists u, (rev_str v ""). split; [|exact Ht].
  now rewrite Hu, Ht at 1.
Qed.

(** [strip s] ends with no whitespace. *)
Lemma strip_clean_end (s : string) :
  drop_any utf8_spaces_rev (rev_str (strip s) "") = None.
Proof.
  unfold strip. rewrite rev_str_involutive.
  apply lstrip_by_clean; [exact utf8_spaces_rev_nonempty|].
  rewrite rev_str_length. lia.
Qed.

Lemma strip_idempotent (s : string) : strip (strip s) = strip s.
Proof.
  destruct (strip_parts s) as (u & v & _ & Hl).
  assert (Hc1 : drop_any utf8_spaces (strip s) = None).
  { apply (drop_any_prefix _ _ v). rewrite <- Hl.
    apply lstrip_by_clean; [exact utf8_spaces_nonempty | lia]. }
  pose proof (strip_clean_end s) as Hc2.
  set (x := strip s) in *. clearbody x.
  unfold strip, lstrip. rewrite (lstrip_by_id _ _ _ Hc1), (lstrip_by_id _ _ _ Hc2).
  apply rev_str_involutive.
Qed.

Lemma has_char_strip (c : ascii) (s : string) :
  has_char c s = false -> has_char c (strip s) = false.
Proof.
  destruct (strip_parts s) as (u & v & Hs & _).
  rewrite Hs at 1. rewrite !has_char_app.
  now intros [_ [H _]%Bool.orb_false_iff]%Bool.orb_false_iff.
Qed.

Arguments base64_encode : simpl nomatch.

Lemma base64_encode_length (l : list Byte.byte) :
  String.length (base64_encode l) = 4 * ((length l + 2) / 3).
Proof.
  assert (H : forall n l, length l <= n ->
            String.length (base64_encode l) = 4 * ((length l + 2) / 3)).
  { induction n as [|n IH]; intros l' Hl.
    - destruct l'; [reflexivity | simpl in Hl; lia].
    - destruct l' as [|b1 [|b2 [|b3 rest]]]; try reflexivity.
      simpl length. cbn [base64_encode String.length].
      rewrite IH by (simpl in Hl; lia).
      replace (S (S (S (length rest))) + 2) with (length rest + 2 + 1 * 3) by lia.
      rewrite Nat.div_add by lia. lia. }
  now apply (H (length l)).
Qed.

Lemma get_in (n : nat) (s : string) (c : ascii) :
  String.get n s = Some c -> In c (list_ascii_of_string s).
Proof.
  revert n; induction s as [|x s IH]; intros n H; simpl in *; [discriminate|].
  destruct n as [|n]; [left; congruence | right; eapply IH; exact H].
Qed.

Lemma list_ascii_app (a b : string) :
  list_ascii_of_string (a ++ b) = (list_ascii_of_string a ++ list_ascii_of_string b)%list.
Proof. induction a as [|c a IH]; simpl; [reflexivity | now rewrite IH]. Qed.

Lemma b64_char_in (n : N) : In (b64_char n) (list_ascii_of_string b64_chars).
Proof.
  unfold b64_char, b64_chars.
  destruct (String.get (N.to_nat n) b64_alphabet) eqn:E.
  - apply get_in in E. rewrite list_ascii_app. apply in_or_app. now left.
  - rewrite list_ascii_app. apply in_or_app. right. now left.
Qed.

Lemma base64_encode_chars (l : list Byte.byte) (c : ascii) :
  In c (list_ascii_of_string (base64_encode l)) -> In c (list_ascii_of_string b64_chars).
Proof.
  assert (H : forall n l, length l <= n -> forall c,
            In c (list_ascii_of_string (base64_encode l)) ->
            In c (list_ascii_of_string b64_chars)).
  { assert (Heq : In "="%char (list_ascii_of_string b64_chars))
      by (vm_compute; tauto).
    induction n as [|n IH]; intros l' Hl c' Hc.
    - destruct l'; [contradiction | simpl in Hl; lia].
    - unfold sextet in Hc.
      destruct l' as [|b1 [|b2 [|b3 rest]]]; cbn [base64_encode list_ascii_of_string In] in Hc;
        repeat (destruct Hc as [<- | Hc]; [apply b64_char_in || exact Heq|]);
        try contradiction.
      apply (IH rest); [simpl in Hl; lia | exact Hc]. }
  now apply (H (length l)).
Qed.

Lemma job_field_truthy (job : dict) (k d : string) :
  d <> "" -> truthy (job_field job k d) = true.
Proof.
  intros Hd. unfold job_field, py_or.
  destruct (truthy (dict_get job k (PStr d))) eqn:E; [exact E|].
  simpl. apply String.eqb_neq in Hd. now rewrite Hd.
Qed.

Lemma job_field_not_none (job : dict) (k d : string) : job_field job k d <> PNone.
Proof.
  unfold job_field, py_or.
  destruct (dict_get job k (PStr d)) as [|s]; simpl; [discriminate|].
  destruct (negb (String.eqb s "")); discriminate.
Qed.

Lemma excel_rows_idx (idx : nat) (jobs : list dict) :
  map x_idx (excel_rows_from idx jobs) = seq idx (length jobs).
Proof.
  revert idx; induction jobs as [|j jobs IH]; intros idx; simpl; [reflexivity|].
  now rewrite IH.
Qed.

Lemma in_excel_rows (idx : nat) (jobs : list dict) (row : excel_row) :
  In row (excel_rows_from idx jobs) -> exists i job, In job jobs /\ row = excel_row_of i job.
Proof.
  revert idx; induction jobs as [|j jobs IH]; intros idx H; simpl in H; [contradiction|].
  destruct H as [<- | H].
  - exists idx, j. split; [now left | reflexivity].
  - destruct (IH _ H) as (i & job & Hj & ->). exists i, job. split; [now right | reflexivity].
Qed.

Lemma get_access_token_http_error (cfg : config) (w : world) :
  res_ok (w_token_res w) = false ->
  get_access_token cfg w =
  (Err (HTTPException 500 "Failed to get access token from Azure AD"),
   set_trace w (w_trace w ++ [EvTokenRequest (token_url cfg) (token_form cfg);
                              EvPrint (LogTokenHttpError (res_status (w_token_res w)))])).
Proof.
  intros Hok. destruct w as [tr fs clk db tk snd xl xp mw]; simpl in *.
  unfold get_access_token; unfold_monad; simpl. rewrite Hok; simpl.
  unfold set_trace; simpl. now rewrite <- app_assoc.
Qed.

Lemma send_mail_token_http_error (cfg : config) (to subj html : string)
  (cc : option (list string)) (ap : option string) (w : world) :
  res_ok (w_token_res w) = false ->
  send_mail_via_graph cfg to subj html cc ap w =
  (Err (HTTPException 500 "Failed to get access token from Azure AD"),
   set_trace w (w_trace w ++ [EvTokenRequest (token_url cfg) (token_form cfg);
                              EvPrint (LogTokenHttpError (res_status (w_token_res w)))])).
Proof.
  intros Hok. unfold send_mail_via_graph, bind at 1.
  now rewrite (get_access_token_http_error cfg w Hok).
Qed.

(** The last steps of the handler in [get_linkedin_jobs_attaches_export]. *)
Ltac finish_excel Hsend :=
  unfold ret; cbn [fst snd set_trace set_fs w_trace w_fs];
  do 3 eexists; split; [reflexivity|];
  split; [rewrite <- !app_assoc; reflexivity|];
  split;
  [ rewrite !filter_app; unfold oversize_log, send_tail; rewrite Hsend;
    destruct (Z.ltb _ _); rewrite filter_is_send_jobs; reflexivity |];
  split; [ destruct (CC_EMAIL_RECIPIENTS _); reflexivity |];
  split; [ destruct (CC_EMAIL_RECIPIENTS _); reflexivity |];
  split; [reflexivity|]; split; [reflexivity|];
  apply fs_lookup_written.


(** ** The query *)

(** X3. Every poster of the result still has more than two distinct titles
    among the returned rows: the HAVING clause keeps all of a qualifying
    poster's rows of the day. *)
Theorem query_rows_posters_high_volume (day : Z) (t : list karmafy_job)
  (r : karmafy_job) (p : string) :
  In r (query_rows day t) -> kj_posted_by_profile r = Some p ->
  2 < length (distinct_titles p (query_rows day t)).
Proof. apply query_rows_high_volume_aux. Qed.

(** ** The CC list, base64 and the Excel label *)

(** X5. Parsing CC_EMAIL_RECIPIENTS distributes over a comma: the list of
    [a + "," + b] is the list of [a] followed by the list of [b]. *)
Theorem parse_cc_app (s1 s2 : string) :
  parse_cc (s1 ++ "," ++ s2) = (parse_cc s1 ++ parse_cc s2)%list.
Proof.
  unfold parse_cc. simpl. rewrite str_split_app, filter_app, map_app. reflexivity.
Qed.

(** X6. Every CC address parsed from CC_EMAIL_RECIPIENTS is non-empty,
    contains no comma and is left unchanged by [str.strip]: it neither
    starts nor ends with a character Python counts as whitespace (ASCII
    or Unicode). *)
Theorem parse_cc_clean (s e : string) :
  In e (parse_cc s) -> e <> "" /\ strip e = e /\ has_char "," e = false.
Proof.
  unfold parse_cc. intros (f & <- & Hf)%in_map_iff.
  apply filter_In in Hf as [Hin Hne].
  apply Bool.negb_true_iff, String.eqb_neq in Hne.
  split; [exact Hne|]. split; [apply strip_idempotent|].
  apply has_char_strip. now apply (str_split_no_sep ",") in Hin.
Qed.

(** X7. The base64 text of an attachment of [n] bytes has [4 * ceil(n/3)]
    characters, all from the base64 alphabet or [=]: no newline or
    whitespace. *)
Theorem base64_encode_shape (l : list Byte.byte) :
  String.length (base64_encode l) = 4 * ((length l + 2) / 3) /\
  forall c, In c (list_ascii_of_string (base64_encode l)) ->
            In c (list_ascii_of_string b64_chars).
Proof.
  split; [apply base64_encode_length | apply base64_encode_chars].
Qed.

(** X8. The Excel label of the report splits the path on backslashes only:
    a non-empty POSIX path without a backslash is shown whole, directories
    included. *)
Theorem excel_label_posix (p : string) :
  p <> "" -> has_char "092"%char p = false -> excel_label p = p.
Proof.
  intros Hp Hb. unfold excel_label.
  apply String.eqb_neq in Hp. rewrite Hp, str_split_without by exact Hb. reflexivity.
Qed.

(** ** The Excel export *)

(** X9. The sheet has one row per job, numbered 1 to n in order; no cell is
    [None], and the Company, Job Title, Posted By and Source cells are never
    empty (they fall back to "N/A"). *)
Theorem excel_rows_shape (jobs : list dict) :
  map x_idx (excel_rows_from 1 jobs) = seq 1 (length jobs) /\
  forall row, In row (excel_rows_from 1 jobs) ->
    truthy (x_company row) = true /\ truthy (x_job_title row) = true /\
    truthy (x_posted_by row) = true /\ truthy (x_source row) = true /\
    x_profile_url row <> PNone /\ x_job_url row <> PNone /\ x_company_url row <> PNone.
Proof.
  split; [apply excel_rows_idx|].
  intros row (i & job & _ & ->)%in_excel_rows. simpl.
  repeat split; (apply job_field_truthy; discriminate) || apply job_field_not_none.
Qed.

(** ** Token and sending errors *)

(** X11. If the token endpoint answers with an error status,
    [send_mail_via_graph] raises the token error after the token request and
    its log line, and never calls sendMail. *)
Theorem send_mail_token_failure (cfg : config) (to subj html : string)
  (cc : option (list string)) (ap : option string) (w : world) :
  res_ok (w_token_res w) = false ->
  send_mail_via_graph cfg to subj html cc ap w =
  (Err (HTTPException 500 "Failed to get access token from Azure AD"),
   set_trace w (w_trace w ++ [EvTokenRequest (token_url cfg) (token_form cfg);
                              EvPrint (LogTokenHttpError (res_status (w_token_res w)))])).
Proof. apply send_mail_token_http_error. Qed.

(** X13. An attachment path that exists but is a directory passes the
    [os.path.exists] check; [open] then fails, the error is logged and
    re-raised, and no mail is sent. *)
Theorem send_mail_attachment_directory (cfg : config) (to subj html : string)
  (cc : option (list string)) (p : string) (w : world) (tok : json) :
  token_ok (w_token_res w) tok -> p <> "" -> fs_lookup (w_fs w) p = Some FileDirectory ->
  send_mail_via_graph cfg to subj html cc (Some p) w =
  (Err (OSError p),
   set_trace w (w_trace w ++ [EvTokenRequest (token_url cfg) (token_form cfg);
                              EvPrint LogAttachmentError])).
Proof.
  intros Htok Hp Hf. unfold send_mail_via_graph.
  rewrite (bind_ok _ _ _ _ _ (get_access_token_ok cfg w tok Htok)).
  destruct w as [tr fs clk db tk snd xl]; simpl in *.
  apply String.eqb_neq in Hp.
  unfold attach, read_file, fs_exists; unfold_monad; simpl.
  rewrite Hp; simpl. rewrite Hf; simpl. rewrite Hf; simpl.
  unfold set_trace; simpl. now rewrite <- !app_assoc.
Qed.

(** X14. An ok token response whose JSON body is not an object (an array,
    a string, a number, a boolean or null) makes [json_data.get] raise
    [AttributeError] rather than the "No access token" error. *)
Theorem get_access_token_not_object (cfg : config) (w : world) (j : json) :
  res_ok (w_token_res w) = true -> res_body (w_token_res w) = BodyJson j ->
  (forall o, j <> JObj o) ->
  fst (get_access_token cfg w) = Err AttributeError.
Proof.
  intros Hok Hb Hj. destruct w as [tr fs clk db tk snd xl]; simpl in *.
  unfold get_access_token; unfold_monad; simpl. rewrite Hok, Hb; simpl.
  destruct j; try reflexivity. now destruct (Hj o).
Qed.

(** ** The handler's failures and its report *)

(** X15. If the database refuses the connection, [get_linkedin_jobs] logs it
    and raises "Database connection failed"; nothing else happens: no query,
    no close, no file, no token request, no mail. *)
Theorem get_linkedin_jobs_connect_failure (cfg : config) (w : world) :
  db_accepts (w_db w) = false ->
  get_linkedin_jobs cfg w =
  (Err (HTTPException 500 "Database connection failed"),
   set_trace w (w_trace w ++ [EvPrint LogDbConnectError])).
Proof.
  intros Ha. destruct w as [tr fs clk db tk snd xl]; simpl in *.
  unfold get_linkedin_jobs, get_linkedin_job_postings, get_db_connection; unfold_monad; simpl.
  now rewrite Ha.
Qed.

(** X16. If the statement fails, [get_linkedin_jobs] raises "Database query
    failed" after logging it and closing the connection; no file is written
    and no Graph call is made. *)
Theorem get_linkedin_jobs_query_failure (cfg : config) (w : world) :
  db_accepts (w_db w) = true -> db_executes (w_db w) = false ->
  get_linkedin_jobs cfg w =
  (Err (HTTPException 500 "Database query failed"),
   set_trace w (w_trace w ++ [EvDbOpen (DATABASE_URL cfg); EvDbExecute linkedin_query [];
                              EvPrint LogDbQueryError; EvDbClose])).
Proof.
  intros Ha He. unfold get_linkedin_jobs, bind at 1.
  rewrite get_linkedin_job_postings_spec by exact Ha. now rewrite He.
Qed.


(** X12. Whatever the attachment argument (none, an empty path, a missing
    file or a regular file), if Graph refuses the mail
    [send_mail_via_graph] has made exactly one sendMail request, then logs
    the status and raises "Failed to send email via Microsoft Graph"; it
    does not retry. *)
Theorem send_mail_graph_rejects (cfg : config) (to subj html : string)
  (cc : option (list string)) (ap : option string) (w : world) (tok : json) :
  token_ok (w_token_res w) tok -> res_ok (w_send_res w) = false ->
  (forall p, ap = Some p -> fs_lookup (w_fs w) p <> Some FileDirectory) ->
  exists evs payload,
    send_mail_via_graph cfg to subj html cc ap w =
    (Err (HTTPException 500 "Failed to send email via Microsoft Graph"),
     set_trace w (w_trace w ++ evs ++
       [EvSendMail (graph_url cfg) payload tok;
        EvPrint (LogSendError (res_status (w_send_res w)))])) /\
    filter is_send evs = [].
Proof.
  intros Htok Hsend Hdir.
  assert (Hnone : forall ap', (ap' = None \/ ap' = Some "") ->
    send_mail_via_graph cfg to subj html cc ap' w =
    (Err (HTTPException 500 "Failed to send email via Microsoft Graph"),
     set_trace w (w_trace w ++
       [EvTokenRequest (token_url cfg) (token_form cfg); EvPrint LogNoAttachmentPath] ++
       [EvSendMail (graph_url cfg)
          (JObj [("message", JObj (base_message to subj html ++ cc_part cc));
                 ("saveToSentItems", JBool true)]) tok;
        EvPrint (LogSendError (res_status (w_send_res w)))]))).
  { intros ap' Hap. unfold send_mail_via_graph.
    rewrite (bind_ok _ _ _ _ _ (get_access_token_ok cfg w tok Htok)).
    destruct w as [tr fs clk db tk snd xl xp mw]; simpl in *.
    destruct Hap as [-> | ->]; unfold_monad; simpl; rewrite Hsend; simpl;
      destruct cc as [[|x l]|]; simpl; unfold set_trace; simpl;
      now rewrite <- !app_assoc. }
  destruct ap as [p|].
  2:{ eexists _, _. split; [apply Hnone; now left | reflexivity]. }
  destruct (String.eqb_spec p "") as [-> | Hp].
  { eexists _, _. split; [apply Hnone; now right | reflexivity]. }
  destruct (fs_lookup (w_fs w) p) as [[c|]|] eqn:Hf.
  - rewrite (send_mail_attached cfg to subj html cc p c w tok Htok Hp Hf).
    unfold send_outcome, send_tail. rewrite Hsend.
    exists (EvTokenRequest (token_url cfg) (token_form cfg) :: oversize_log c
            ++ [EvPrint (LogAttachmentAdded (basename p) (length c)
                           (String.length (base64_encode c)))]).
    eexists. split.
    + simpl. now rewrite <- !app_assoc.
    + simpl. rewrite filter_app. unfold oversize_log.
      destruct (Z.ltb _ _); reflexivity.
  - exfalso. exact (Hdir p eq_refl Hf).
  - rewrite (send_mail_file_missing cfg to subj html cc p w tok Htok Hp Hf).
    unfold send_outcome, send_tail. rewrite Hsend.
    exists [EvTokenRequest (token_url cfg) (token_form cfg); EvPrint (LogAttachmentNotFound p)].
    eexists. split; [|reflexivity]. simpl. now rewrite <- ?app_assoc.
Qed.


(** ** The export's failures *)

Lemma export_open_fails (cfg : config) (jobs : list dict) (w : world) :
  is_dir (w_fs w) (EXPORTS_DIR cfg)
    && negb (is_dir (w_fs w) (export_path cfg (w_clock w)))
    && w_may_write w (export_path cfg (w_clock w)) = false ->
  export_jobs_to_excel cfg jobs w = (Err (OSError (export_path cfg (w_clock w))), w).
Proof.
  unfold export_path. intros H.
  destruct w as [tr fs clk db tk snd xl xp mw]; simpl in *.
  unfold export_jobs_to_excel, open_for_write; unfold_monad; simpl.
  now rewrite H.
Qed.


(** X10. If the query returns rows but the report file cannot be opened
    for writing (the exports directory is missing, a directory sits at the
    report's path, or the OS refuses), [get_linkedin_jobs] raises [OSError]
    on that path right after the query: no file is written, no token is
    requested and no mail is sent. *)
Theorem get_linkedin_jobs_export_unwritable (cfg : config) (w : world) :
  db_accepts (w_db w) = true -> db_executes (w_db w) = true ->
  query_rows (db_current_date (w_db w)) (db_karmafy_job (w_db w)) <> [] ->
  is_dir (w_fs w) (EXPORTS_DIR cfg)
    && negb (is_dir (w_fs w) (export_path cfg (w_clock w)))
    && w_may_write w (export_path cfg (w_clock w)) = false ->
  get_linkedin_jobs cfg w =
  (Err (OSError (export_path cfg (w_clock w))),
   set_trace w (w_trace w ++ [EvDbOpen (DATABASE_URL cfg); EvDbExecute linkedin_query [];
                              EvDbClose])).
Proof.
  intros Ha He Hne Hopen.
  destruct (query_rows (db_current_date (w_db w)) (db_karmafy_job (w_db w)))
    as [|r rs] eqn:Hq; [congruence|].
  unfold get_linkedin_jobs.
  rewrite (bind_ok _ _ _ _ _ (query_step cfg w Ha He)), Hq.
  cbn beta iota delta [map].
  apply bind_err. apply (export_open_fails cfg _ (set_trace w _)). exact Hopen.
Qed.


(** X17. If the query returns rows and the export completes but the token
    request fails, [get_linkedin_jobs] raises the token error after the
    Excel file has been written (it stays in the exports directory); the
    only Graph call made is the token request. *)
Theorem get_linkedin_jobs_token_failure (cfg : config) (w : world) :
  db_accepts (w_db w) = true -> db_executes (w_db w) = true ->
  query_rows (db_current_date (w_db w)) (db_karmafy_job (w_db w)) <> [] ->
  export_ok cfg (map row_to_dict (query_rows (db_current_date (w_db w))
                                    (db_karmafy_job (w_db w)))) w = true ->
  res_ok (w_token_res w) = false ->
  fst (get_linkedin_jobs cfg w) =
    Err (HTTPException 500 "Failed to get access token from Azure AD") /\
  fs_lookup (w_fs (snd (get_linkedin_jobs cfg w))) (export_path cfg (w_clock w)) =
    Some (FileRegular (w_xlsx w (excel_rows_from 1
      (map row_to_dict (query_rows (db_current_date (w_db w)) (db_karmafy_job (w_db w))))))) /\
  filter is_graph_call (w_trace (snd (get_linkedin_jobs cfg w))) =
    (filter is_graph_call (w_trace w) ++ [EvTokenRequest (token_url cfg) (token_form cfg)])%list.
Proof.
  intros Ha He Hne Hx Htok.
  destruct (query_rows (db_current_date (w_db w)) (db_karmafy_job (w_db w)))
    as [|r rs] eqn:Hq; [congruence|].
  unfold get_linkedin_jobs.
  rewrite (bind_ok _ _ _ _ _ (query_step cfg w Ha He)), Hq.
  cbn beta iota delta [map].
  erewrite bind_ok; [|apply export_jobs_to_excel_spec; exact Hx].
  rewrite bind_get_world.
  rewrite (bind_ok _ _ _ _ _ (build_template_spec _ _ _ _ _)).
  erewrite bind_err; [|apply send_mail_token_http_error; exact Htok].
  cbn [fst snd set_trace set_fs w_trace w_fs w_clock w_db w_token_res w_send_res w_xlsx].
  split; [reflexivity|]. split; [apply fs_lookup_written|].
  rewrite !filter_app. simpl. now rewrite <- !app_assoc.
Qed.

(** X18. On success, the one mail [get_linkedin_jobs] sends has the subject
    "LinkedIn Job Postings Report: n Job(s) from High-Volume Posters - date"
    and, as its only attachment, the Excel file just written: named after its
    path, with the base64 of the sheet of the returned jobs.  The response's
    [excel_file] is that path and its [jobs] are the rows of the query. *)
Theorem get_linkedin_jobs_attaches_export (cfg : config) (w : world) (tok : json) :
  db_accepts (w_db w) = true -> db_executes (w_db w) = true ->
  query_rows (db_current_date (w_db w)) (db_karmafy_job (w_db w)) <> [] ->
  export_ok cfg (map row_to_dict (query_rows (db_current_date (w_db w))
                                    (db_karmafy_job (w_db w)))) w = true ->
  token_ok (w_token_res w) tok -> res_ok (w_send_res w) = true ->
  let jobs := map row_to_dict (query_rows (db_current_date (w_db w)) (db_karmafy_job (w_db w))) in
  let path := export_path cfg (w_clock w) in
  exists resp evs msg,
    fst (get_linkedin_jobs cfg w) = Ok resp /\
    w_trace (snd (get_linkedin_jobs cfg w)) = (w_trace w ++ evs)%list /\
    filter is_send evs =
      [EvSendMail (graph_url cfg)
         (JObj [("message", JObj msg); ("saveToSentItems", JBool true)]) tok] /\
    jlookup msg "subject" =
      Some (JStr (APP_NAME ++ ": " ++ nat_str (length jobs)
                  ++ " Job(s) from High-Volume Posters - " ++ clk_date (w_clock w))) /\
    jlookup msg "attachments" =
      Some (JArr [attachment_json path (w_xlsx w (excel_rows_from 1 jobs))]) /\
    resp_excel_file resp = Some path /\ resp_jobs resp = Some jobs /\
    fs_lookup (w_fs (snd (get_linkedin_jobs cfg w))) path =
      Some (FileRegular (w_xlsx w (excel_rows_from 1 jobs))).
Proof.
  intros Ha He Hne Hx Htok Hsend jobs path.
  unfold jobs, path; clear jobs path.
  destruct (query_rows (db_current_date (w_db w)) (db_karmafy_job (w_db w)))
    as [|r rs] eqn:Hq; [congruence|].
  unfold get_linkedin_jobs.
  rewrite (bind_ok _ _ _ _ _ (query_step cfg w Ha He)), Hq.
  cbn beta iota delta [map].
  erewrite bind_ok; [|apply export_jobs_to_excel_spec; exact Hx].
  rewrite bind_get_world.
  rewrite (bind_ok _ _ _ _ _ (build_template_spec _ _ _ _ _)).
  erewrite bind_ok.
  2:{ rewrite send_mail_attached with (tok := tok) (c := w_xlsx w (excel_rows_from 1 (map row_to_dict (r :: rs)))).
      - unfold send_outcome. cbn [w_send_res set_trace set_fs]. rewrite Hsend. reflexivity.
      - exact Htok.
      - apply export_path_nonempty.
      - apply fs_lookup_written. }
  cbn [set_trace set_fs w_trace w_fs w_clock w_db w_token_res w_send_res w_xlsx].
  rewrite !bind_print.
  change (row_to_dict r :: map row_to_dict rs) with (map row_to_dict (r :: rs)).
  rewrite firstn_map.
  rewrite (bind_ok _ _ _ _ _ (print_jobs_rows _ _)).
  destruct (Nat.ltb 5 (length (map row_to_dict (r :: rs)))).
  - rewrite bind_print. finish_excel Hsend.
  - rewrite bind_ret. finish_excel Hsend.
Qed.

(** ** Import *)

(** X19. When the four required values are set and non-empty and
    [EXPORTS_DIR.mkdir(exist_ok=True)] can succeed ([exports] is already a
    directory, or it is absent and may be created in the module's
    directory), the import succeeds: the configuration holds the values,
    EXPORTS_DIR is [exports] next to the module, and the effects are, in
    order, the mkdir, the creation of the app with FastAPI's documentation
    routes, and the routes [POST /get-linkedin-jobs] and [GET /]. *)
Theorem module_load_configured (proc dotenv : environ) (fs : filesys)
  (may_write : string -> bool) (module_dir : string) :
  required_config_present proc dotenv = true ->
  let exports := module_dir ++ "/exports" in
  fs_lookup fs exports = Some FileDirectory \/
  (fs_lookup fs exports = None /\ is_dir fs module_dir = true /\ may_write exports = true) ->
  exists cfg,
    module_load proc dotenv fs may_write module_dir =
      (Ok cfg, [EvMkdir exports; EvAppCreated;
                EvRoute "GET" "/openapi.json"; EvRoute "GET" "/docs";
                EvRoute "GET" "/docs/oauth2-redirect"; EvRoute "GET" "/redoc";
                EvRoute "POST" "/get-linkedin-jobs"; EvRoute "GET" "/"]) /\
    getenv proc dotenv "AZURE_TENANT_ID" = Some (TENANT_ID cfg) /\
    getenv proc dotenv "AZURE_CLIENT_ID" = Some (CLIENT_ID cfg) /\
    getenv proc dotenv "AZURE_CLIENT_SECRET" = Some (CLIENT_SECRET cfg) /\
    getenv proc dotenv "DATABASE_URL" = Some (DATABASE_URL cfg) /\
    EXPORTS_DIR cfg = exports.
Proof.
  unfold required_config_present. intros H Hdir. simpl in H.
  repeat rewrite Bool.andb_true_iff in H.
  destruct H as (Ht & Hc & Hs & Hd & _).
  assert (Hm : mkdir_exist_ok fs may_write module_dir (module_dir ++ "/exports") = None).
  { unfold mkdir_exist_ok.
    destruct Hdir as [-> | (-> & H1 & H2)]; [reflexivity|]. now rewrite H1, H2. }
  unfold module_load. cbv zeta. rewrite Hm.
  destruct (getenv proc dotenv "AZURE_TENANT_ID") as [t|]; [|discriminate].
  destruct (getenv proc dotenv "AZURE_CLIENT_ID") as [c|]; [|discriminate].
  destruct (getenv proc dotenv "AZURE_CLIENT_SECRET") as [s|]; [|discriminate].
  destruct (getenv proc dotenv "DATABASE_URL") as [d|]; [|discriminate].
  simpl in *. rewrite Ht, Hc, Hs, Hd. simpl.
  eexists. split; [reflexivity|]. repeat split.
Qed.

(** X21. Even with the whole configuration set, a file (not a directory)
    named [exports] next to the module makes the import fail on
    [EXPORTS_DIR.mkdir(exist_ok=True)] with FileExistsError, before the
    FastAPI app is created. *)
Theorem module_load_exports_is_file (proc dotenv : environ) (fs : filesys)
  (may_write : string -> bool) (module_dir : string) (c : list Byte.byte) :
  required_config_present proc dotenv = true ->
  fs_lookup fs (module_dir ++ "/exports") = Some (FileRegular c) ->
  module_load proc dotenv fs may_write module_dir =
    (Err (OSError (module_dir ++ "/exports")), [EvMkdir (module_dir ++ "/exports")]).
Proof.
  unfold required_config_present. intros H Hf. simpl in H.
  repeat rewrite Bool.andb_true_iff in H.
  destruct H as (Ht & Hc & Hs & Hd & _).
  unfold module_load, mkdir_exist_ok. cbv zeta. rewrite Hf.
  destruct (getenv proc dotenv "AZURE_TENANT_ID") as [t|]; [|discriminate].
  destruct (getenv proc dotenv "AZURE_CLIENT_ID") as [c'|]; [|discriminate].
  destruct (getenv proc dotenv "AZURE_CLIENT_SECRET") as [s|]; [|discriminate].
  destruct (getenv proc dotenv "DATABASE_URL") as [d|]; [|discriminate].
  simpl in *. now rewrite Ht, Hc, Hs, Hd.
Qed.

(** ** Witnesses *)
(** X3 at the example table and its "Backend Engineer" row. *)
Lemma query_rows_posters_high_volume_witness :
  In (posting "Backend Engineer" 7200%Z) (query_rows day_example table_example) /\
  kj_posted_by_profile (posting "Backend Engineer" 7200%Z) =
    Some "https://www.linkedin.com/in/recruiter" /\
  2 < length (distinct_titles "https://www.linkedin.com/in/recruiter"
                (query_rows day_example table_example)).
Proof.
  assert (Hin : In (posting "Backend Engineer" 7200%Z) (query_rows day_example table_example)).
  { vm_compute. left. reflexivity. }
  split; [exact Hin|]. split; [reflexivity|].
  apply (query_rows_posters_high_volume day_example table_example
           (posting "Backend Engineer" 7200%Z) "https://www.linkedin.com/in/recruiter");
    [exact Hin | reflexivity].
Defined.

(** X6 at a CC list with spaces and an empty entry. *)
Lemma parse_cc_clean_witness :
  In "alice@example.com" (parse_cc " alice@example.com , ,bob@example.com") /\
  "alice@example.com" <> "" /\ strip "alice@example.com" = "alice@example.com" /\
  has_char "," "alice@example.com" = false.
Proof.
  assert (Hin : In "alice@example.com" (parse_cc " alice@example.com , ,bob@example.com")).
  { vm_compute. left. reflexivity. }
  split; [exact Hin|].
  apply (parse_cc_clean " alice@example.com , ,bob@example.com" "alice@example.com").
  exact Hin.
Defined.

(** X8 at the path of an exported report. *)
Lemma excel_label_posix_witness :
  "/srv/karmafy/exports/linkedin_jobs_2024-10-04_090000.xlsx" <> "" /\
  has_char "092"%char "/srv/karmafy/exports/linkedin_jobs_2024-10-04_090000.xlsx" = false /\
  excel_label "/srv/karmafy/exports/linkedin_jobs_2024-10-04_090000.xlsx" =
    "/srv/karmafy/exports/linkedin_jobs_2024-10-04_090000.xlsx".
Proof.
  split; [discriminate|]. split; [vm_compute; reflexivity|].
  apply excel_label_posix; [discriminate | vm_compute; reflexivity].
Defined.

(** X11 at a token endpoint answering 401. *)
Lemma send_mail_token_failure_witness :
  res_ok (w_token_res world_token_denied) = false /\
  send_mail_via_graph cfg_example "bhanutejathouti@gmail.com" "LinkedIn report"
    "<p>report</p>" None None world_token_denied =
  (Err (HTTPException 500 "Failed to get access token from Azure AD"),
   set_trace world_token_denied
     (w_trace world_token_denied ++
        [EvTokenRequest (token_url cfg_example) (token_form cfg_example);
         EvPrint (LogTokenHttpError (res_status (w_token_res world_token_denied)))])).
Proof.
  split; [vm_compute; reflexivity|].
  apply send_mail_token_failure. vm_compute. reflexivity.
Defined.

(** X13 at the exports directory given as the attachment. *)
Lemma send_mail_attachment_directory_witness :
  token_ok (w_token_res world_example) (JStr "eyJ0eXAiOiJKV1Qi") /\
  "/srv/karmafy/exports" <> "" /\
  fs_lookup (w_fs world_example) "/srv/karmafy/exports" = Some FileDirectory /\
  send_mail_via_graph cfg_example "bhanutejathouti@gmail.com" "LinkedIn report"
    "<p>report</p>" None (Some "/srv/karmafy/exports") world_example =
  (Err (OSError "/srv/karmafy/exports"),
   set_trace world_example (w_trace world_example ++
     [EvTokenRequest (token_url cfg_example) (token_form cfg_example);
      EvPrint LogAttachmentError])).
Proof.
  split; [split; [reflexivity | split; reflexivity]|].
  split; [discriminate|]. split; [vm_compute; reflexivity|].
  apply (send_mail_attachment_directory _ _ _ _ _ _ _ (JStr "eyJ0eXAiOiJKV1Qi")).
  - split; [reflexivity | split; reflexivity].
  - discriminate.
  - vm_compute. reflexivity.
Defined.

(** X14 at an ok token response whose body is an empty JSON array. *)
Lemma get_access_token_not_object_witness :
  res_ok (w_token_res world_token_array) = true /\
  res_body (w_token_res world_token_array) = BodyJson (JArr []) /\
  fst (get_access_token cfg_example world_token_array) = Err AttributeError.
Proof.
  split; [vm_compute; reflexivity|]. split; [reflexivity|].
  apply (get_access_token_not_object cfg_example world_token_array (JArr [])).
  - vm_compute. reflexivity.
  - reflexivity.
  - intros o H. discriminate H.
Defined.

(** X15 at a database refusing connections. *)
Lemma get_linkedin_jobs_connect_failure_witness :
  db_accepts (w_db world_db_down) = false /\
  get_linkedin_jobs cfg_example world_db_down =
  (Err (HTTPException 500 "Database connection failed"),
   set_trace world_db_down (w_trace world_db_down ++ [EvPrint LogDbConnectError])).
Proof.
  split; [reflexivity|].
  apply get_linkedin_jobs_connect_failure. reflexivity.
Defined.

(** X16 at a database on which the statement fails. *)
Lemma get_linkedin_jobs_query_failure_witness :
  db_accepts (w_db world_db_broken) = true /\ db_executes (w_db world_db_broken) = false /\
  get_linkedin_jobs cfg_example world_db_broken =
  (Err (HTTPException 500 "Database query failed"),
   set_trace world_db_broken (w_trace world_db_broken ++
     [EvDbOpen (DATABASE_URL cfg_example); EvDbExecute linkedin_query [];
      EvPrint LogDbQueryError; EvDbClose])).
Proof.
  split; [reflexivity|]. split; [reflexivity|].
  apply get_linkedin_jobs_query_failure; reflexivity.
Defined.


(** X12 at a Graph endpoint answering 403, with an attachment path that
    does not exist. *)
Lemma send_mail_graph_rejects_witness :
  token_ok (w_token_res world_send_rejected) (JStr "eyJ0eXAiOiJKV1Qi") /\
  res_ok (w_send_res world_send_rejected) = false /\
  fs_lookup (w_fs world_send_rejected) "/srv/karmafy/exports/missing.xlsx" = None /\
  exists evs payload,
    send_mail_via_graph cfg_example "bhanutejathouti@gmail.com" "LinkedIn report"
      "<p>report</p>" None (Some "/srv/karmafy/exports/missing.xlsx") world_send_rejected =
    (Err (HTTPException 500 "Failed to send email via Microsoft Graph"),
     set_trace world_send_rejected (w_trace world_send_rejected ++ evs ++
       [EvSendMail (graph_url cfg_example) payload (JStr "eyJ0eXAiOiJKV1Qi");
        EvPrint (LogSendError (res_status (w_send_res world_send_rejected)))])) /\
    filter is_send evs = [].
Proof.
  split; [split; [reflexivity | split; reflexivity]|].
  split; [vm_compute; reflexivity|].
  split; [vm_compute; reflexivity|].
  apply send_mail_graph_rejects.
  - split; [reflexivity | split; reflexivity].
  - vm_compute. reflexivity.
  - intros p Hp. injection Hp as <-. vm_compute. discriminate.
Defined.

(** X10 at a host whose exports directory is missing. *)
Lemma get_linkedin_jobs_export_unwritable_witness :
  db_accepts (w_db world_no_exports) = true /\
  db_executes (w_db world_no_exports) = true /\
  query_rows (db_current_date (w_db world_no_exports))
    (db_karmafy_job (w_db world_no_exports)) <> [] /\
  is_dir (w_fs world_no_exports) (EXPORTS_DIR cfg_example) = false /\
  get_linkedin_jobs cfg_example world_no_exports =
  (Err (OSError (export_path cfg_example (w_clock world_no_exports))),
   set_trace world_no_exports (w_trace world_no_exports ++
     [EvDbOpen (DATABASE_URL cfg_example); EvDbExecute linkedin_query []; EvDbClose])).
Proof.
  split; [reflexivity|]. split; [reflexivity|].
  split; [vm_compute; discriminate|]. split; [vm_compute; reflexivity|].
  apply get_linkedin_jobs_export_unwritable.
  - reflexivity.
  - reflexivity.
  - vm_compute. discriminate.
  - vm_compute. reflexivity.
Defined.


(** X17 at the example table with a token endpoint answering 401. *)
Lemma get_linkedin_jobs_token_failure_witness :
  db_accepts (w_db world_token_denied) = true /\
  db_executes (w_db world_token_denied) = true /\
  query_rows (db_current_date (w_db world_token_denied))
    (db_karmafy_job (w_db world_token_denied)) <> [] /\
  export_ok cfg_example (map row_to_dict (query_rows (db_current_date (w_db world_token_denied))
                          (db_karmafy_job (w_db world_token_denied)))) world_token_denied = true /\
  res_ok (w_token_res world_token_denied) = false /\
  fst (get_linkedin_jobs cfg_example world_token_denied) =
    Err (HTTPException 500 "Failed to get access token from Azure AD") /\
  fs_lookup (w_fs (snd (get_linkedin_jobs cfg_example world_token_denied)))
    (export_path cfg_example (w_clock world_token_denied)) =
    Some (FileRegular (w_xlsx world_token_denied (excel_rows_from 1
      (map row_to_dict (query_rows (db_current_date (w_db world_token_denied))
                          (db_karmafy_job (w_db world_token_denied))))))) /\
  filter is_graph_call (w_trace (snd (get_linkedin_jobs cfg_example world_token_denied))) =
    (filter is_graph_call (w_trace world_token_denied) ++
     [EvTokenRequest (token_url cfg_example) (token_form cfg_example)])%list.
Proof.
  split; [reflexivity|]. split; [reflexivity|].
  split; [vm_compute; discriminate|]. split; [vm_compute; reflexivity|].
  split; [vm_compute; reflexivity|].
  apply get_linkedin_jobs_token_failure.
  - reflexivity.
  - reflexivity.
  - vm_compute. discriminate.
  - vm_compute. reflexivity.
  - vm_compute. reflexivity.
Defined.

(** X18 at the example world. *)
Lemma get_linkedin_jobs_attaches_export_witness :
  db_accepts (w_db world_example) = true /\ db_executes (w_db world_example) = true /\
  query_rows (db_current_date (w_db world_example)) (db_karmafy_job (w_db world_example)) <> [] /\
  export_ok cfg_example (map row_to_dict (query_rows (db_current_date (w_db world_example))
                          (db_karmafy_job (w_db world_example)))) world_example = true /\
  token_ok (w_token_res world_example) (JStr "eyJ0eXAiOiJKV1Qi") /\
  res_ok (w_send_res world_example) = true /\
  let jobs := map row_to_dict (query_rows (db_current_date (w_db world_example))
                                 (db_karmafy_job (w_db world_example))) in
  let path := export_path cfg_example (w_clock world_example) in
  exists resp evs msg,
    fst (get_linkedin_jobs cfg_example world_example) = Ok resp /\
    w_trace (snd (get_linkedin_jobs cfg_example world_example)) =
      (w_trace world_example ++ evs)%list /\
    filter is_send evs =
      [EvSendMail (graph_url cfg_example)
         (JObj [("message", JObj msg); ("saveToSentItems", JBool true)])
         (JStr "eyJ0eXAiOiJKV1Qi")] /\
    jlookup msg "subject" =
      Some (JStr (APP_NAME ++ ": " ++ nat_str (length jobs)
                  ++ " Job(s) from High-Volume Posters - " ++ clk_date (w_clock world_example))) /\
    jlookup msg "attachments" =
      Some (JArr [attachment_json path (w_xlsx world_example (excel_rows_from 1 jobs))]) /\
    resp_excel_file resp = Some path /\ resp_jobs resp = Some jobs /\
    fs_lookup (w_fs (snd (get_linkedin_jobs cfg_example world_example))) path =
      Some (FileRegular (w_xlsx world_example (excel_rows_from 1 jobs))).
Proof.
  split; [reflexivity|]. split; [reflexivity|].
  split; [vm_compute; discriminate|].
  split; [vm_compute; reflexivity|].
  split; [split; [reflexivity | split; reflexivity]|].
  split; [vm_compute; reflexivity|].
  apply get_linkedin_jobs_attaches_export.
  - reflexivity.
  - reflexivity.
  - vm_compute. discriminate.
  - vm_compute. reflexivity.
  - split; [reflexivity | split; reflexivity].
  - vm_compute. reflexivity.
Defined.

(** X19 at a host without [exports] yet and an environment with only the
    four required values. *)
Lemma module_load_configured_witness :
  required_config_present env_required [] = true /\
  fs_lookup host_fs ("/srv/karmafy" ++ "/exports") = None /\
  exists cfg,
    module_load env_required [] host_fs (fun _ => true) "/srv/karmafy" =
      (Ok cfg, [EvMkdir ("/srv/karmafy" ++ "/exports"); EvAppCreated;
                EvRoute "GET" "/openapi.json"; EvRoute "GET" "/docs";
                EvRoute "GET" "/docs/oauth2-redirect"; EvRoute "GET" "/redoc";
                EvRoute "POST" "/get-linkedin-jobs"; EvRoute "GET" "/"]) /\
    getenv env_required [] "AZURE_TENANT_ID" = Some (TENANT_ID cfg) /\
    getenv env_required [] "AZURE_CLIENT_ID" = Some (CLIENT_ID cfg) /\
    getenv env_required [] "AZURE_CLIENT_SECRET" = Some (CLIENT_SECRET cfg) /\
    getenv env_required [] "DATABASE_URL" = Some (DATABASE_URL cfg) /\
    EXPORTS_DIR cfg = "/srv/karmafy" ++ "/exports".
Proof.
  split; [vm_compute; reflexivity|].
  split; [vm_compute; reflexivity|].
  apply module_load_configured.
  - vm_compute. reflexivity.
  - right. vm_compute. split; [reflexivity | split; reflexivity].
Defined.

(** X21 at a host where [exports] is an empty file. *)
Lemma module_load_exports_is_file_witness :
  required_config_present env_required [] = true /\
  fs_lookup host_fs_exports_file ("/srv/karmafy" ++ "/exports") = Some (FileRegular []) /\
  module_load env_required [] host_fs_exports_file (fun _ => true) "/srv/karmafy" =
    (Err (OSError ("/srv/karmafy" ++ "/exports")), [EvMkdir ("/srv/karmafy" ++ "/exports")]).
Proof.
  split; [vm_compute; reflexivity|].
  split; [vm_compute; reflexivity|].
  apply (module_load_exports_is_file _ _ _ _ _ []).
  - vm_compute. reflexivity.
  - vm_compute. reflexivity.
Defined.
